(** * computeSales.py: total cost of sales from a price catalogue

    A shallow embedding of [create_price_catalogue] and [func_total_cost]
    of [computeSales.py], over the values that [json.load] hands to them,
    and the properties of the two functions.

    Python values are modelled as they are at run time: [int] is an
    unbounded integer ([Z]), [float] is a binary64 number (Rocq's primitive
    [float], with the operations of IEEE 754), [bool] is a subclass of
    [int], a JSON object is a [dict] with [str] keys.  The price catalogue
    is the one mutable object of the program: it lives in the [world]
    next to the console, and the two functions are written in a small
    state-and-exception monad over that world.  [load_file] and [main]
    follow, over the files and the console of a run. *)

From Stdlib Require Import ZArith Floats.
From stdpp Require Import gmap strings list.

#[local] Set Warnings "-register-all".
#[local] Open Scope Z_scope.

(** ** Python values *)

Module Py.

(** What [json.load] can return. *)
Inductive pyval : Type :=
  | PNone
  | PBool (b : bool)
  | PInt (z : Z)
  | PFloat (f : float)
  | PStr (s : string)
  | PList (l : list pyval)
  | PDict (d : gmap string pyval).

(** The exceptions the two functions can meet. *)
Inductive pyexc : Type :=
  | TypeError
  | OverflowError
  | KeyError
  | MemoryError.

(** A value or an exception, for the operations that touch no state. *)
Inductive result (A : Type) : Type :=
  | Ok (a : A)
  | Err (e : pyexc).
#[global] Arguments Ok {A} a.
#[global] Arguments Err {A} e.

Definition result_bind {A B} (r : result A) (k : A → result B) : result B :=
  match r with
  | Ok a => k a
  | Err e => Err e
  end.

(** [bool(v)]: the truth value used by [if v] and [not v]. *)
Definition truthy (v : pyval) : bool :=
  match v with
  | PNone => false
  | PBool b => b
  | PInt z => negb (z =? 0)
  | PFloat f => negb (f =? 0)%float
  | PStr s => negb (String.eqb s EmptyString)
  | PList l => match l with [] => false | _ :: _ => true end
  | PDict d => negb (bool_decide (d = ∅))
  end.

(** The numbers: [bool] counts as the [int] 0 or 1. *)
Inductive number : Type :=
  | NInt (z : Z)
  | NFloat (f : float).

Definition as_number (v : pyval) : option number :=
  match v with
  | PBool b => Some (NInt (Z.b2z b))
  | PInt z => Some (NInt z)
  | PFloat f => Some (NFloat f)
  | _ => None
  end.

Definition of_number (n : number) : pyval :=
  match n with
  | NInt z => PInt z
  | NFloat f => PFloat f
  end.

(** [isinstance(v, (int, float))]; [bool] is a subclass of [int]. *)
Definition isinstance_int_float (v : pyval) : bool :=
  match as_number v with
  | Some _ => true
  | None => false
  end.

(** Conversion of an [int] to a [float]: rounded to nearest, ties to even;
    [None] when the rounded value is out of range, where Python raises
    [OverflowError: int too large to convert to float]. *)
Definition float_of_int (z : Z) : option float :=
  match binary_normalize prec emax z 0 false with
  | S754_infinity _ => None
  | sf => Some (SF2Prim sf)
  end.

Definition to_float (n : number) : result float :=
  match n with
  | NFloat f => Ok f
  | NInt z =>
      match float_of_int z with
      | Some f => Ok f
      | None => Err OverflowError
      end
  end.

(** [a * b] on numbers: exact on two ints, otherwise in binary64 after
    converting the int operand. *)
Definition number_mul (a b : number) : result number :=
  match a, b with
  | NInt x, NInt y => Ok (NInt (x * y))
  | _, _ =>
      result_bind (to_float a) (λ x,
      result_bind (to_float b) (λ y, Ok (NFloat (x * y)%float)))
  end.

Definition str_repeat (s : string) (n : Z) : string :=
  String.concat EmptyString (replicate (Z.to_nat n) s).

(** The operand of a sequence repetition: an [int] or a [bool]. *)
Definition as_index (v : pyval) : option Z :=
  match v with
  | PBool b => Some (Z.b2z b)
  | PInt z => Some z
  | _ => None
  end.

(** The largest [Py_ssize_t] (of a 64-bit CPython): the bound of a
    repetition count and of the length of a sequence. *)
Definition ssize_max : Z := 2 ^ 63 - 1.

(** [len(s)] in code points, for a text held as its UTF-8 bytes: the
    bytes that do not continue a character. *)
Fixpoint str_len (s : string) : Z :=
  match s with
  | EmptyString => 0
  | String c rest =>
      let b := Z.of_nat (Ascii.nat_of_ascii c) in
      (if (128 <=? b) && (b <? 192) then 0 else 1) + str_len rest
  end.

(** [v * n] for a sequence [v].  A count that does not fit
    [Py_ssize_t] is an [OverflowError]; a count below 1 gives the empty
    sequence; a result longer than [Py_ssize_t] allows is an
    [OverflowError] for a [str] and a [MemoryError] for a [list].  A
    repetition within these bounds is taken to fit in memory. *)
Definition seq_repeat (v : pyval) (n : Z) : result pyval :=
  match v with
  | PStr s =>
      if (n <? - ssize_max - 1) || (ssize_max <? n) then Err OverflowError
      else if n <? 1 then Ok (PStr EmptyString)
      else if ssize_max / n <? str_len s then Err OverflowError
      else Ok (PStr (str_repeat s n))
  | PList l =>
      if (n <? - ssize_max - 1) || (ssize_max <? n) then Err OverflowError
      else if (n <? 1) || bool_decide (length l = 0%nat) then Ok (PList [])
      else if ssize_max / n <? Z.of_nat (length l) then Err MemoryError
      else Ok (PList (mjoin (replicate (Z.to_nat n) l)))
  | _ => Err TypeError
  end.

(** [a * b].  Two numbers are multiplied; a [str] or a [list] times an
    [int] is repeated; anything else is a [TypeError]. *)
Definition py_mul (a b : pyval) : result pyval :=
  match as_number a, as_number b with
  | Some x, Some y =>
      result_bind (number_mul x y) (λ n, Ok (of_number n))
  | _, _ =>
      match as_index b, as_index a with
      | Some n, _ => seq_repeat a n
      | None, Some n => seq_repeat b n
      | None, None => Err TypeError
      end
  end.

(** [total + v] for a [float] [total]: [v] has to be a number. *)
Definition float_add (total : float) (v : pyval) : result float :=
  match as_number v with
  | Some n => result_bind (to_float n) (λ f, Ok (total + f)%float)
  | None => Err TypeError
  end.

(** ** Dictionary keys

    A [dict] finds a key by [hash] and [==].  Among the hashable values
    of JSON, [==] identifies a [bool], an [int] and a [float] of the same
    mathematical value ([True == 1 == 1.0]), so a key is represented by
    its class: the integer value for every number that has one, the float
    itself otherwise.  [json] returns one shared object for every [NaN],
    and a [dict] tries identity before [==], so [NaN] is a key equal to
    itself, as the single [nan] of [float] is. *)

Inductive pykey : Type :=
  | KNone
  | KNum (z : Z)
  | KFrac (f : float)
  | KStr (s : string).

(** The integer a float is equal to, when there is one. *)
Definition float_to_Z (f : float) : option Z :=
  match Prim2SF f with
  | S754_zero _ => Some 0
  | S754_finite s m e =>
      let v := if s then Z.neg m else Z.pos m in
      if 0 <=? e then Some (v * 2 ^ e)
      else if Z.pos m mod 2 ^ (- e) =? 0 then Some (v / 2 ^ (- e))
      else None
  | S754_infinity _ | S754_nan => None
  end.

(** [hash(v)] and the class of [v] under [==]; [None] when [v] is
    unhashable ([TypeError: unhashable type]). *)
Definition key_of (v : pyval) : option pykey :=
  match v with
  | PNone => Some KNone
  | PBool b => Some (KNum (Z.b2z b))
  | PInt z => Some (KNum z)
  | PFloat f =>
      Some (match float_to_Z f with
            | Some z => KNum z
            | None => KFrac f
            end)
  | PStr s => Some (KStr s)
  | PList _ | PDict _ => None
  end.

End Py.
Export Py.

(** Decidable equality and an enumeration of the keys, for [gmap]. *)

#[global] Instance float_eq_dec : EqDecision float.
Proof.
  intros x y. destruct (PrimFloat.Leibniz.eqb x y) eqn:E.
  - left. by apply FloatAxioms.Leibniz.eqb_spec.
  - right. intros H. apply FloatAxioms.Leibniz.eqb_spec in H. congruence.
Defined.

Definition sf_code (x : spec_float) : bool + bool + unit + bool * positive * Z :=
  match x with
  | S754_zero s => inl (inl (inl s))
  | S754_infinity s => inl (inl (inr s))
  | S754_nan => inl (inr tt)
  | S754_finite s m e => inr (s, m, e)
  end.

Definition sf_decode (c : bool + bool + unit + bool * positive * Z) : spec_float :=
  match c with
  | inl (inl (inl s)) => S754_zero s
  | inl (inl (inr s)) => S754_infinity s
  | inl (inr _) => S754_nan
  | inr (s, m, e) => S754_finite s m e
  end.

#[global] Program Instance float_countable : Countable float :=
  inj_countable' (λ f, sf_code (Prim2SF f)) (λ c, SF2Prim (sf_decode c)) _.
Next Obligation.
  intros f. simpl.
  replace (sf_decode (sf_code (Prim2SF f))) with (Prim2SF f)
    by (by destruct (Prim2SF f)).
  apply SF2Prim_Prim2SF.
Qed.

#[global] Instance pykey_eq_dec : EqDecision pykey.
Proof. solve_decision. Defined.

Definition pykey_code (k : pykey) : unit + Z + float + string :=
  match k with
  | KNone => inl (inl (inl tt))
  | KNum z => inl (inl (inr z))
  | KFrac f => inl (inr f)
  | KStr s => inr s
  end.

Definition pykey_decode (c : unit + Z + float + string) : pykey :=
  match c with
  | inl (inl (inl _)) => KNone
  | inl (inl (inr z)) => KNum z
  | inl (inr f) => KFrac f
  | inr s => KStr s
  end.

#[global] Program Instance pykey_countable : Countable pykey :=
  inj_countable' pykey_code pykey_decode _.
Next Obligation. by intros []. Qed.

(** ** The world, and computations over it *)

Module ComputeSales.

(** A JSON object after [json.load]: a [dict] with [str] keys.  The
    product list and the sales list are lists of such objects, the only
    values that have the [get] the two loops call. *)
Abbreviation record := (gmap string pyval).

(** [d.get(key)]: the value, or [None] when the key is absent. *)
Definition get (d : record) (key : string) : pyval :=
  default PNone (d !! key).

(** The lines [func_total_cost] prints.  A line is kept as the warning it
    is with the values that are formatted into it; the console is taken
    to accept every line. *)
Inductive message : Type :=
  | SaleWithoutProductName (sale : record)
      (* Advertencia: Venta sin nombre de producto: {sale} *)
  | InvalidQuantity (product_name quantity : pyval)
      (* Advertencia: Cantidad inválida para '{product_name}': {quantity} *)
  | ProductNotFound (product_name : pyval).
      (* Advertencia: Producto '{product_name}' no encontrado en el catálogo. *)

(** The state a call can see or change: the dictionary that the name
    [price_dict] refers to (the local of [create_price_catalogue], the
    argument of [func_total_cost]), and what has been printed so far. *)
Record world : Type := World {
  price_dict : gmap pykey pyval;
  stdout : list message
}.

(** A call returns a value or raises, and leaves a world either way. *)
Inductive outcome (A : Type) : Type :=
  | Returned (a : A) (w : world)
  | Raised (e : pyexc) (w : world).
#[global] Arguments Returned {A} a w.
#[global] Arguments Raised {A} e w.

Definition M (A : Type) : Type := world → outcome A.

#[global] Instance M_ret : MRet M := λ A a w, Returned a w.

#[global] Instance M_bind : MBind M := λ A B k m w,
  match m w with
  | Returned a w' => k a w'
  | Raised e w' => Raised e w'
  end.

(** A stateless operation inside a computation. *)
Definition lift {A} (r : result A) : M A := λ w,
  match r with
  | Ok a => Returned a w
  | Err e => Raised e w
  end.

(** [print(line)] *)
Definition print (line : message) : M unit := λ w,
  Returned tt (World (price_dict w) (stdout w ++ [line])).

(** [price_dict = {}] *)
Definition new_price_dict : M unit := λ w,
  Returned tt (World ∅ (stdout w)).

(** [price_dict[key] = value] *)
Definition setitem (key value : pyval) : M unit := λ w,
  match key_of key with
  | Some k => Returned tt (World (<[k := value]> (price_dict w)) (stdout w))
  | None => Raised TypeError w
  end.

(** [key in price_dict] *)
Definition contains (key : pyval) : M bool := λ w,
  match key_of key with
  | Some k => Returned (bool_decide (is_Some (price_dict w !! k))) w
  | None => Raised TypeError w
  end.

(** [price_dict[key]] *)
Definition getitem (key : pyval) : M pyval := λ w,
  match key_of key with
  | Some k =>
      match price_dict w !! k with
      | Some v => Returned v w
      | None => Raised KeyError w
      end
  | None => Raised TypeError w
  end.

(** The dictionary itself, for [return price_dict]. *)
Definition the_price_dict : M (gmap pykey pyval) := λ w,
  Returned (price_dict w) w.

(** ** The two functions *)

(** The body of the loop of [create_price_catalogue]. *)
Definition add_item (item : record) : M unit :=
  let title := get item "title" in
  let price := get item "price" in
  if truthy title && isinstance_int_float price
  then setitem title price
  else mret tt.

Fixpoint for_items (product_list : list record) : M unit :=
  match product_list with
  | [] => mret tt
  | item :: rest => add_item item;; for_items rest
  end.

Definition create_price_catalogue (product_list : list record)
  : M (gmap pykey pyval) :=
  new_price_dict;;
  for_items product_list;;
  the_price_dict.

(** The body of the loop of [func_total_cost]: from the total so far to
    the total after [sale]. *)
Definition add_sale (sale : record) (total_cost : float) : M float :=
  let product_name := get sale "Product" in
  let quantity := get sale "Quantity" in
  if negb (truthy product_name) then
    print (SaleWithoutProductName sale);; mret total_cost
  else if negb (isinstance_int_float quantity) then
    print (InvalidQuantity product_name quantity);; mret total_cost
  else
    found ← contains product_name;
    if found : bool then
      price ← getitem product_name;
      product ← lift (py_mul price quantity);
      lift (float_add total_cost product)
    else
      print (ProductNotFound product_name);; mret total_cost.

Fixpoint for_sales (sales_list : list record) (total_cost : float) : M float :=
  match sales_list with
  | [] => mret total_cost
  | sale :: rest =>
      total_cost' ← add_sale sale total_cost;
      for_sales rest total_cost'
  end.

Definition func_total_cost (sales_list : list record) : M float :=
  for_sales sales_list 0%float.

(** The two calls of [main]:
    [price_catalogue = create_price_catalogue(product_data)] and
    [total_sales = func_total_cost(price_catalogue, sales_data)]. *)
Definition process (product_data sales_data : list record) : M float :=
  create_price_catalogue product_data;;
  func_total_cost sales_data.

(** A call of [func_total_cost(price_dict, sales_list)] with nothing
    printed before it. *)
Definition total_cost_of (C : gmap pykey pyval) (sales_list : list record)
  : outcome float :=
  func_total_cost sales_list (World C []).

(** A call of [create_price_catalogue(product_list)]. *)
Definition catalogue_of (product_list : list record)
  : outcome (gmap pykey pyval) :=
  create_price_catalogue product_list (World ∅ []).

End ComputeSales.
Export ComputeSales.

(** ** What a call computes, without the monad

    The same two loops as functions of the catalogue alone: the result of
    a record, the lines it prints, and their accumulation over a list.
    They are proved equal to the code below, and the properties are then
    read off them. *)

Module Pure.

(** The value or the exception of an [outcome]. *)
Definition result_of {A} (o : outcome A) : result A :=
  match o with
  | Returned a _ => Ok a
  | Raised e _ => Err e
  end.

Definition world_of {A} (o : outcome A) : world :=
  match o with
  | Returned _ w | Raised _ w => w
  end.

(** The outcome that leaves the catalogue [C] as it is and prints [ms]
    after [out]. *)
Definition outcome_of {A} (C : gmap pykey pyval) (out : list message)
    (r : result A * list message) : outcome A :=
  match r.1 with
  | Ok a => Returned a (World C (out ++ r.2))
  | Err e => Raised e (World C (out ++ r.2))
  end.

Definition hashable (v : pyval) : bool :=
  match key_of v with
  | Some _ => true
  | None => false
  end.

(** The catalogue's entry for a product name. *)
Definition price_in (C : gmap pykey pyval) (product_name : pyval)
  : option pyval :=
  k ← key_of product_name; C !! k.

(** [total_cost + price * quantity] *)
Definition accumulate (total_cost : float) (price quantity : pyval)
  : result float :=
  result_bind (py_mul price quantity) (float_add total_cost).

(** A record whose product name passed the name check: the quantity
    check and the catalogue lookup. *)
Definition quantity_and_lookup (C : gmap pykey pyval)
    (product_name quantity : pyval) (total_cost : float)
  : result float * list message :=
  if negb (isinstance_int_float quantity) then
    (Ok total_cost, [InvalidQuantity product_name quantity])
  else if negb (hashable product_name) then
    (Err TypeError, [])
  else
    match price_in C product_name with
    | Some price => (accumulate total_cost price quantity, [])
    | None => (Ok total_cost, [ProductNotFound product_name])
    end.

(** One sale record: the total after it, or the exception it raises, and
    what it prints. *)
Definition sale_step (C : gmap pykey pyval) (sale : record)
    (total_cost : float) : result float * list message :=
  let product_name := get sale "Product" in
  let quantity := get sale "Quantity" in
  if negb (truthy product_name) then
    (Ok total_cost, [SaleWithoutProductName sale])
  else quantity_and_lookup C product_name quantity total_cost.

Fixpoint sales_run (C : gmap pykey pyval) (sales_list : list record)
    (total_cost : float) : result float * list message :=
  match sales_list with
  | [] => (Ok total_cost, [])
  | sale :: rest =>
      let step := sale_step C sale total_cost in
      match step.1 with
      | Ok total_cost' =>
          let run := sales_run C rest total_cost' in
          (run.1, step.2 ++ run.2)
      | Err e => (Err e, step.2)
      end
  end.

(** The loop of [create_price_catalogue] from the dictionary [d]: the
    dictionary it leaves, and the exception if it raises. *)
Fixpoint items_run (d : gmap pykey pyval) (product_list : list record)
  : result unit * gmap pykey pyval :=
  match product_list with
  | [] => (Ok tt, d)
  | item :: rest =>
      if truthy (get item "title") && isinstance_int_float (get item "price")
      then
        match key_of (get item "title") with
        | Some k => items_run (<[k := get item "price"]> d) rest
        | None => (Err TypeError, d)
        end
      else items_run d rest
  end.

End Pure.
Export Pure.

(** ** The specification's reading of the total

    The sale records that count, the warning of each record that does
    not, and the sum of [price * quantity] over the records that count,
    taken in input order from [0.0] in Python's arithmetic. *)

Module Spec.

(** [product_name in C] as a truth value. *)
Definition in_catalogue (C : gmap pykey pyval) (product_name : pyval) : bool :=
  match price_in C product_name with
  | Some _ => true
  | None => false
  end.

(** The record has a truthy product name, a numeric quantity and a
    product that is in the catalogue. *)
Definition counted (C : gmap pykey pyval) (sale : record) : bool :=
  truthy (get sale "Product")
  && isinstance_int_float (get sale "Quantity")
  && in_catalogue C (get sale "Product").

(** The pair [(price(p), q)] of a record. *)
Definition price_and_quantity (C : gmap pykey pyval) (sale : record)
  : pyval * pyval :=
  (default PNone (price_in C (get sale "Product")), get sale "Quantity").

Fixpoint sum_from (total : float) (terms : list (pyval * pyval))
  : result float :=
  match terms with
  | [] => Ok total
  | (price, quantity) :: rest =>
      result_bind (accumulate total price quantity) (λ total',
      sum_from total' rest)
  end.

Definition sum_of_sales (C : gmap pykey pyval) (sales_list : list record)
  : result float :=
  sum_from 0%float
    (List.map (price_and_quantity C) (List.filter (counted C) sales_list)).

(** The warning of a record that does not count. *)
Definition warning_of (C : gmap pykey pyval) (sale : record) : list message :=
  let product_name := get sale "Product" in
  let quantity := get sale "Quantity" in
  if negb (truthy product_name) then [SaleWithoutProductName sale]
  else if negb (isinstance_int_float quantity) then
    [InvalidQuantity product_name quantity]
  else if in_catalogue C product_name then []
  else [ProductNotFound product_name].

(** The record reaches the catalogue lookup with a product name that
    cannot be hashed (a list or an object). *)
Definition unhashable_lookup (sale : record) : bool :=
  truthy (get sale "Product")
  && isinstance_int_float (get sale "Quantity")
  && negb (hashable (get sale "Product")).

(** An [int] that [float] can hold. *)
Definition fits_float (z : Z) : bool :=
  match float_of_int z with
  | Some _ => true
  | None => false
  end.

(** [price * quantity] and its addition to a float convert no [int] that
    is out of the range of [float]; [price] is a number. *)
Definition in_range (price quantity : pyval) : bool :=
  match as_number price, as_number quantity with
  | Some (NInt a), Some (NInt b) => fits_float (a * b)
  | Some (NInt a), Some (NFloat _) => fits_float a
  | Some (NFloat _), Some (NInt b) => fits_float b
  | Some (NFloat _), Some (NFloat _) => true
  | _, _ => false
  end.

(** The filter of the catalogue builder, as the code has it and as the
    specification words it. *)
Definition included (item : record) : bool :=
  truthy (get item "title") && isinstance_int_float (get item "price").

Definition is_int_or_float_not_bool (v : pyval) : bool :=
  match v with
  | PInt _ | PFloat _ => true
  | _ => false
  end.

Definition included_by_spec (item : record) : bool :=
  truthy (get item "title") && is_int_or_float_not_bool (get item "price").

(** The entry passes the filter under a title that is the key [k]. *)
Definition included_as (k : pykey) (item : record) : bool :=
  included item && bool_decide (key_of (get item "title") = Some k).

(** The price of the last entry, in input order, that passes the filter
    under the key [k]. *)
Fixpoint last_price (product_list : list record) (k : pykey) : option pyval :=
  match product_list with
  | [] => None
  | item :: rest =>
      match last_price rest k with
      | Some price => Some price
      | None => if included_as k item then Some (get item "price") else None
      end
  end.

(** The entry does not make [price_dict[title] = price] raise. *)
Definition insertable (item : record) : bool :=
  negb (included item) || hashable (get item "title").

(** [price * quantity] as the float that is added to the total. *)
Definition addend (price quantity : pyval) : result float :=
  result_bind (py_mul price quantity) (λ product,
  match as_number product with
  | Some n => to_float n
  | None => Err TypeError
  end).

(** A record that counts adds a float that is [>= 0]. *)
Definition nonnegative_contribution (C : gmap pykey pyval) (sale : record)
  : bool :=
  negb (counted C sale)
  || match addend (price_and_quantity C sale).1 (price_and_quantity C sale).2 with
     | Ok c => (0 <=? c)%float
     | Err _ => false
     end.

End Spec.
Export Spec.

(** ** The program around the two functions

    [load_file] and [main].  A file is the text at a path; [json.load],
    the two number formats of the report and the two readings of the
    clock are taken as they come: the properties hold whatever they
    are. *)

Module Program.

(** What [json.load] makes of the text of a file: a value, the
    [JSONDecodeError] that [load_file] catches, or an exception that it
    does not catch (the text is not UTF-8, the nesting is too deep). *)
Inductive parse : Type :=
  | Parsed (v : pyval)
  | DecodeError
  | ReadFailure.

(** The exceptions that reach the top of the program. *)
Inductive uncaught : Type :=
  | Core (e : pyexc)
  | AttributeError
  | Unhandled.

(** How a run ends: an exit status ([sys.exit(n)], or 0 when [main]
    returns) or the traceback of an exception. *)
Inductive termination : Type :=
  | ExitCode (n : Z)
  | Traceback (e : uncaught).

(** What [print] has written: a text, or a warning of [func_total_cost]. *)
Inductive console_line : Type :=
  | Line (text : string)
  | Warning (m : message).

(** The console and the files, by path.  (Two paths of one file, and the
    failures of [open] other than a missing file, are not modelled.) *)
Record system : Type := System {
  console : list console_line;
  files : gmap string string
}.

Inductive step (A : Type) : Type :=
  | Continue (a : A) (s : system)
  | Stop (t : termination) (s : system).
#[global] Arguments Continue {A} a s.
#[global] Arguments Stop {A} t s.

Definition IO (A : Type) : Type := system → step A.

#[global] Instance IO_ret : MRet IO := λ A a s, Continue a s.

#[global] Instance IO_bind : MBind IO := λ A B k m s,
  match m s with
  | Continue a s' => k a s'
  | Stop t s' => Stop t s'
  end.

(** [print(text)] *)
Definition say (text : string) : IO unit := λ s,
  Continue tt (System (console s ++ [Line text]) (files s)).

(** [sys.exit(n)] *)
Definition sys_exit {A} (n : Z) : IO A := λ s, Stop (ExitCode n) s.

Definition throw {A} (e : uncaught) : IO A := λ s, Stop (Traceback e) s.

(** [with open(path, "a") as f: f.write(text)]: the text goes after what
    the file holds; a file that is not there is created. *)
Definition append_to (path text : string) : IO unit := λ s,
  Continue tt
    (System (console s)
       (<[path := default EmptyString (files s !! path) +:+ text]> (files s))).

(** A call of one of the two functions on the catalogue [C]: what it
    prints goes to the console, an exception it raises ends the run. *)
Definition call {A} (C : gmap pykey pyval) (m : M A)
  : IO (A * gmap pykey pyval) := λ s,
  match m (World C []) with
  | Returned a w =>
      Continue (a, price_dict w)
        (System (console s ++ (Warning <$> stdout w)) (files s))
  | Raised e w =>
      Stop (Traceback (Core e))
        (System (console s ++ (Warning <$> stdout w)) (files s))
  end.

(** What [for item in v] followed by [item.get(...)] meets.  A list gives
    its items, and the first one that is not an object has no [get]; an
    object gives its keys and a text its characters, none of which has a
    [get]; a number, a boolean or [None] cannot be iterated. *)
Inductive iteration : Type :=
  | NotIterable
  | Items (records : list record) (then_no_get : bool).

Fixpoint leading_records (l : list pyval) : list record * bool :=
  match l with
  | [] => ([], false)
  | PDict d :: rest =>
      let lr := leading_records rest in (d :: lr.1, lr.2)
  | _ :: _ => ([], true)
  end.

Definition iterate (v : pyval) : iteration :=
  match v with
  | PList l => Items (leading_records l).1 (leading_records l).2
  | PDict d => Items [] (negb (bool_decide (d = ∅)))
  | PStr s => Items [] (negb (String.eqb s EmptyString))
  | PNone | PBool _ | PInt _ | PFloat _ => NotIterable
  end.

Definition newline : string := String (Ascii.ascii_of_nat 10) EmptyString.

Definition usage : string :=
  "Uso correcto: python computeSales.py priceCatalogue.json salesRecord.json".

Definition results_file : string := "SalesResults.txt".

(** ["-" * 30] *)
Definition dashes : string := String.concat EmptyString (replicate 30 "-").

Section Main.

Variable json_load : string → parse.

(** [f"{x:,.2f}"] and [f"{x:.4f}"] *)
Variable format_total : float → string.
Variable format_seconds : float → string.

(** The two values of [time.time()]. *)
Variables start_time end_time : float.

Definition load_file (filename : string) : IO pyval := λ s,
  match files s !! filename with
  | None =>
      (say ("Error: El archivo '" +:+ filename +:+ "' no fue encontrado.");;
       mret PNone) s
  | Some text =>
      match json_load text with
      | Parsed v => Continue v s
      | DecodeError =>
          (say ("Error: El archivo '" +:+ filename
                +:+ "' no tiene un formato válido.");;
           mret PNone) s
      | ReadFailure => Stop (Traceback Unhandled) s
      end
  end.

(** [create_price_catalogue(product_data)] on whatever was loaded. *)
Definition build_catalogue (product_data : pyval) : IO (gmap pykey pyval) :=
  match iterate product_data with
  | NotIterable => throw (Core TypeError)
  | Items records then_no_get =>
      built ← call ∅ (create_price_catalogue records);
      if then_no_get : bool then throw AttributeError else mret built.1
  end.

(** [func_total_cost(price_catalogue, sales_data)] on whatever was
    loaded. *)
Definition total_sales_of (price_catalogue : gmap pykey pyval)
    (sales_data : pyval) : IO float :=
  match iterate sales_data with
  | NotIterable => throw (Core TypeError)
  | Items records then_no_get =>
      totalled ← call price_catalogue (func_total_cost records);
      if then_no_get : bool then throw AttributeError else mret totalled.1
  end.

Definition is_none (v : pyval) : bool :=
  match v with
  | PNone => true
  | _ => false
  end.

(** ["\n".join(output_lines)] *)
Definition result_text (sales_file : string) (total_sales elapsed_time : float)
  : string :=
  String.concat newline
    [ "Resultados de ventas";
      dashes;
      "Archivo de ventas : " +:+ sales_file;
      "Total de ventas   : " +:+ format_total total_sales;
      "Tiempo de ejecución: " +:+ format_seconds elapsed_time +:+ " segundos";
      dashes ].

(** [main()], with [argv] for [sys.argv]. *)
Definition main (argv : list string) : IO unit :=
  match argv with
  | [_; price_file; sales_file] =>
      product_data ← load_file price_file;
      sales_data ← load_file sales_file;
      if is_none product_data || is_none sales_data then sys_exit 1
      else
        price_catalogue ← build_catalogue product_data;
        total_sales ← total_sales_of price_catalogue sales_data;
        let elapsed_time := (end_time - start_time)%float in
        let text := result_text sales_file total_sales elapsed_time in
        say (newline +:+ text);;
        append_to results_file (text +:+ newline +:+ newline)
  | _ => say usage;; sys_exit 1
  end.

(** [load_file] by the state of the file: the value it returns ([None]
    in Python for a file that is missing or is not JSON; no value when
    the exception is not caught), and the line it prints. *)
Definition file_value (fs : gmap string string) (filename : string)
  : option pyval :=
  match fs !! filename with
  | None => Some PNone
  | Some text =>
      match json_load text with
      | Parsed v => Some v
      | DecodeError => Some PNone
      | ReadFailure => None
      end
  end.

Definition file_complaint (fs : gmap string string) (filename : string)
  : list console_line :=
  match fs !! filename with
  | None =>
      [Line ("Error: El archivo '" +:+ filename +:+ "' no fue encontrado.")]
  | Some text =>
      match json_load text with
      | DecodeError =>
          [Line ("Error: El archivo '" +:+ filename
                 +:+ "' no tiene un formato válido.")]
      | Parsed _ | ReadFailure => []
      end
  end.

(** A run of the script on the given files, with an empty console: how it
    ends, and the console and the files it leaves.  A [main] that
    returns ends the run with the exit status 0. *)
Definition run (argv : list string) (fs : gmap string string)
  : termination * system :=
  match main argv (System [] fs) with
  | Continue _ s => (ExitCode 0, s)
  | Stop t s => (t, s)
  end.

End Main.

End Program.
Export Program.

(** ** Concrete catalogues and sales *)

Module Examples.

(** [{"Gum": 2.0}] *)
Definition gum_catalogue : gmap pykey pyval := {[ KStr "Gum" := PFloat 2 ]}.

(** [{"Product": "Gum", "Quantity": 3}] *)
Definition gum_3 : record :=
  {[ "Product" := PStr "Gum"; "Quantity" := PInt 3 ]}.

(** [{"Product": "Candy", "Quantity": 1}] *)
Definition candy_1 : record :=
  {[ "Product" := PStr "Candy"; "Quantity" := PInt 1 ]}.

(** [{"Product": "Gum", "Quantity": true}] *)
Definition gum_true : record :=
  {[ "Product" := PStr "Gum"; "Quantity" := PBool true ]}.

(** [{"Product": "Gum", "Quantity": -1}] *)
Definition gum_minus_1 : record :=
  {[ "Product" := PStr "Gum"; "Quantity" := PInt (-1) ]}.

(** [{"Product": ["x"], "Quantity": 1}] *)
Definition list_as_name : record :=
  {[ "Product" := PList [PStr "x"]; "Quantity" := PInt 1 ]}.

(** [{"Product": 5, "Quantity": 2}] and the catalogue [{5: 2.0}] *)
Definition five_2 : record :=
  {[ "Product" := PInt 5; "Quantity" := PInt 2 ]}.
Definition five_catalogue : gmap pykey pyval := {[ KNum 5 := PFloat 2 ]}.

(** The catalogue [{"Gum": 10 ** 400}] *)
Definition huge_catalogue : gmap pykey pyval :=
  {[ KStr "Gum" := PInt (10 ^ 400) ]}.

(** [{"Product": "Gum", "Quantity": "5"}] *)
Definition gum_text_5 : record :=
  {[ "Product" := PStr "Gum"; "Quantity" := PStr "5" ]}.

(** [{"Quantity": 4}] *)
Definition nameless_4 : record := {[ "Quantity" := PInt 4 ]}.

(** [{"title": "Gum", "price": 2.0}] *)
Definition item_gum : record :=
  {[ "title" := PStr "Gum"; "price" := PFloat 2 ]}.

(** [{"title": "Gum", "price": true}] *)
Definition item_gum_true : record :=
  {[ "title" := PStr "Gum"; "price" := PBool true ]}.

(** [{"title": "Gum", "price": 3}] *)
Definition item_gum_3 : record :=
  {[ "title" := PStr "Gum"; "price" := PInt 3 ]}.

(** [{"title": "Candy", "price": "1.5"}] *)
Definition item_candy_text : record :=
  {[ "title" := PStr "Candy"; "price" := PStr "1.5" ]}.

(** A reader of three texts, two number formats and the files of a
    run, to try [main] on. *)
Definition toy_json_load (text : string) : parse :=
  if String.eqb text "catalogue" then Parsed (PList [PDict item_gum])
  else if String.eqb text "sales" then
    Parsed (PList [PDict gum_3; PDict candy_1])
  else if String.eqb text "null" then Parsed PNone
  else if String.eqb text "7" then Parsed (PInt 7)
  else if String.eqb text "mixed" then
    Parsed (PList [PDict candy_1; PInt 5; PDict gum_3])
  else DecodeError.

Definition toy_format_total (total : float) : string :=
  if (total =? 6)%float then "6.00" else "?".

Definition toy_format_seconds (seconds : float) : string :=
  if (seconds =? 0.25)%float then "0.2500" else "?".

Definition toy_files : gmap string string :=
  {[ "prices.json" := "catalogue"; "sales.json" := "sales";
     "null.json" := "null"; "seven.json" := "7"; "broken.json" := "{";
     "mixed.json" := "mixed";
     "SalesResults.txt" := "earlier" ]}.

Definition toy_run : list string → gmap string string → termination * system :=
  run toy_json_load toy_format_total toy_format_seconds 1%float 1.25%float.

Definition toy_report : string :=
  result_text toy_format_total toy_format_seconds "sales.json" 6%float
    (1.25 - 1)%float.

End Examples.
Export Examples.

(** * Properties *)

(** ** The code against its pure reading *)

Lemma add_sale_run C sale total_cost out :
  add_sale sale total_cost (World C out)
  = outcome_of C out (sale_step C sale total_cost).
Proof.
  unfold add_sale, sale_step, quantity_and_lookup, outcome_of.
  destruct (truthy (get sale "Product")); simpl; [|done].
  destruct (isinstance_int_float (get sale "Quantity")); simpl; [|done].
  unfold mbind, M_bind, contains, getitem, hashable, price_in; simpl.
  destruct (key_of (get sale "Product")) as [k|]; simpl;
    [|by rewrite app_nil_r].
  destruct (C !! k) as [price|] eqn:Hk; simpl.
  - rewrite Hk. unfold accumulate, lift.
    rewrite app_nil_r.
    destruct (py_mul price (get sale "Quantity")) as [product|e]; simpl; [|done].
    by destruct (float_add total_cost product).
  - done.
Qed.

Lemma for_sales_run C sales_list total_cost out :
  for_sales sales_list total_cost (World C out)
  = outcome_of C out (sales_run C sales_list total_cost).
Proof.
  revert total_cost out.
  induction sales_list as [|sale rest IH]; intros total_cost out; simpl.
  - unfold outcome_of; simpl. by rewrite app_nil_r.
  - unfold mbind, M_bind. rewrite add_sale_run. unfold outcome_of at 1.
    destruct (sale_step C sale total_cost) as [[t'|e] ms]; simpl; [|done].
    rewrite IH. unfold outcome_of; simpl.
    by destruct (sales_run C rest t') as [[?|?] ?]; simpl; rewrite app_assoc.
Qed.

(** ** The pure reading against the specification's *)

Lemma sale_step_spec C sale total_cost :
  unhashable_lookup sale = false →
  sale_step C sale total_cost
  = (if counted C sale
     then accumulate total_cost (price_and_quantity C sale).1
            (price_and_quantity C sale).2
     else Ok total_cost,
     warning_of C sale).
Proof.
  unfold unhashable_lookup, sale_step, quantity_and_lookup, counted,
    warning_of, in_catalogue, price_and_quantity.
  destruct (truthy (get sale "Product")); simpl; [|done].
  destruct (isinstance_int_float (get sale "Quantity")); simpl; [|done].
  intros ->%negb_false_iff; simpl.
  by destruct (price_in C (get sale "Product")).
Qed.

Lemma sales_run_sum C sales_list total_cost :
  Forall (λ sale, unhashable_lookup sale = false) sales_list →
  (sales_run C sales_list total_cost).1
  = sum_from total_cost
      (List.map (price_and_quantity C) (List.filter (counted C) sales_list)).
Proof.
  intros Hs. revert total_cost.
  induction Hs as [|sale rest Hsale _ IH]; intros total_cost; simpl; [done|].
  rewrite sale_step_spec by done. simpl.
  destruct (counted C sale); simpl; [|apply IH].
  destruct (accumulate total_cost _ _); simpl; [apply IH|done].
Qed.

Lemma sales_run_warnings C sales_list total_cost total :
  Forall (λ sale, unhashable_lookup sale = false) sales_list →
  (sales_run C sales_list total_cost).1 = Ok total →
  (sales_run C sales_list total_cost).2
  = concat (List.map (warning_of C) sales_list).
Proof.
  intros Hs. revert total_cost.
  induction Hs as [|sale rest Hsale _ IH]; intros total_cost; simpl; [done|].
  rewrite sale_step_spec by done. simpl.
  destruct (if counted C sale then _ else _) as [t'|e]; simpl; [|done].
  intros Hrest. f_equal. by apply IH.
Qed.

Lemma in_range_accumulate price quantity total_cost :
  in_range price quantity = true →
  ∃ total_cost', accumulate total_cost price quantity = Ok total_cost'.
Proof.
  unfold in_range, accumulate, py_mul, fits_float.
  destruct (as_number price) as [[a|x]|], (as_number quantity) as [[b|y]|];
    simpl; try done; unfold float_add; simpl.
  - destruct (float_of_int (a * b)); [eauto|done].
  - destruct (float_of_int a); [eauto|done].
  - destruct (float_of_int b); [eauto|done].
  - eauto.
Qed.

Lemma sum_from_in_range C sales_list total_cost :
  Forall (λ sale, negb (counted C sale)
                  || in_range (price_and_quantity C sale).1
                       (price_and_quantity C sale).2 = true) sales_list →
  ∃ total,
    sum_from total_cost
      (List.map (price_and_quantity C) (List.filter (counted C) sales_list))
    = Ok total.
Proof.
  intros Hs. revert total_cost.
  induction Hs as [|sale rest Hsale _ IH]; intros total_cost; simpl; [eauto|].
  destruct (counted C sale); simpl in *; [|apply IH].
  destruct (in_range_accumulate _ _ total_cost Hsale) as [t' ->].
  simpl. apply IH.
Qed.

Lemma total_cost_of_sum C sales_list :
  Forall (λ sale, unhashable_lookup sale = false) sales_list →
  result_of (total_cost_of C sales_list) = sum_of_sales C sales_list.
Proof.
  intros Hs. unfold total_cost_of, func_total_cost, sum_of_sales.
  rewrite for_sales_run, <- (sales_run_sum C sales_list 0%float Hs).
  unfold outcome_of. by destruct (sales_run C sales_list 0) as [[?|?] ?].
Qed.

(** ** The total *)

Lemma huge_price_overflows :
  counted huge_catalogue gum_3 = true
  ∧ total_cost_of huge_catalogue [gum_3]
    = Raised OverflowError (World huge_catalogue []).
Proof. split; reflexivity. Qed.

(** C1, as the code has it.  For every catalogue and every list of sale
    records in which no record offers the catalogue lookup a list or an
    object as product name, [func_total_cost] has the outcome of the sum
    of [price(p) * q], taken in input order from [0.0] in Python's
    arithmetic, over exactly the records whose product name is truthy,
    whose quantity is an [int] or a [float] (which a [bool] is) and whose
    product is in the catalogue: it returns the sum when the sum has a
    value and raises what the sum raises (an [int] too large for [float])
    otherwise.  Every other record adds nothing. *)
Theorem func_total_cost_is_sum C sales_list :
  Forall (λ sale, unhashable_lookup sale = false) sales_list →
  result_of (total_cost_of C sales_list) = sum_of_sales C sales_list.
Proof.
  intros Hs. unfold total_cost_of, func_total_cost, sum_of_sales.
  rewrite for_sales_run. unfold outcome_of.
  pose proof (sales_run_sum C sales_list 0%float Hs) as Hsum.
  destruct (sales_run C sales_list 0) as [[total|e] printed]; simpl in *;
    by rewrite <- Hsum.
Qed.

Lemma func_total_cost_is_sum_witness :
  Forall (λ sale, unhashable_lookup sale = false) [gum_3; candy_1]
  ∧ result_of (total_cost_of gum_catalogue [gum_3; candy_1]) = Ok 6%float.
Proof.
  split; [by repeat constructor|].
  rewrite (func_total_cost_is_sum gum_catalogue [gum_3; candy_1]);
    [reflexivity|by repeat constructor].
Defined.

(** ** Exceptions and warnings *)

Lemma list_as_name_raises :
  total_cost_of gum_catalogue [list_as_name]
  = Raised TypeError (World gum_catalogue []).
Proof. reflexivity. Qed.

(** C4, as the code has it.  When no record offers the catalogue lookup
    an unhashable product name and no [int] among a counted record's
    price, quantity and product is out of the range of [float], the call
    returns: every record is processed in input order, each record that
    lacks a product name, has a non-numeric quantity or names a product
    that is not in the catalogue prints its one warning and adds nothing,
    and the total is the sum over the records that count. *)
Theorem func_total_cost_returns C sales_list :
  Forall (λ sale, unhashable_lookup sale = false) sales_list →
  Forall (λ sale, negb (counted C sale)
                  || in_range (price_and_quantity C sale).1
                       (price_and_quantity C sale).2 = true) sales_list →
  ∃ total,
    total_cost_of C sales_list
    = Returned total (World C (concat (List.map (warning_of C) sales_list)))
    ∧ sum_of_sales C sales_list = Ok total.
Proof.
  intros Hs Hr.
  destruct (sum_from_in_range C sales_list 0%float Hr) as [total Htotal].
  exists total. split; [|done].
  unfold total_cost_of, func_total_cost. rewrite for_sales_run.
  pose proof (sales_run_sum C sales_list 0%float Hs) as Hsum.
  rewrite Htotal in Hsum.
  pose proof (sales_run_warnings C sales_list 0%float total Hs Hsum) as Hw.
  unfold outcome_of. by rewrite Hsum, Hw.
Qed.

Lemma func_total_cost_returns_witness :
  ∃ total,
    total_cost_of gum_catalogue [nameless_4; gum_3; candy_1]
    = Returned total
        (World gum_catalogue
           [SaleWithoutProductName nameless_4; ProductNotFound (PStr "Candy")])
    ∧ sum_of_sales gum_catalogue [nameless_4; gum_3; candy_1] = Ok total.
Proof.
  apply (func_total_cost_returns gum_catalogue [nameless_4; gum_3; candy_1]);
    by repeat constructor.
Defined.



(** C10.  The name check rejects exactly the falsy values.  A record
    whose product name is falsy (absent, [None], the empty string, zero,
    an empty list or object) prints the warning for a missing product name
    and leaves the total alone.  A record whose product name is truthy,
    whatever its type, goes on to the quantity check and the catalogue
    lookup, which never print that warning. *)
Theorem name_check_rejects_exactly_falsy C sale total_cost out :
  (truthy (get sale "Product") = false →
   add_sale sale total_cost (World C out)
   = Returned total_cost (World C (out ++ [SaleWithoutProductName sale])))
  ∧ (truthy (get sale "Product") = true →
     add_sale sale total_cost (World C out)
     = outcome_of C out
         (quantity_and_lookup C (get sale "Product") (get sale "Quantity")
            total_cost)
     ∧ ∀ sale',
         SaleWithoutProductName sale'
         ∉ (quantity_and_lookup C (get sale "Product") (get sale "Quantity")
              total_cost).2).
Proof.
  rewrite add_sale_run. unfold sale_step. split; intros ->; simpl; [done|].
  split; [done|]. intros sale'. unfold quantity_and_lookup.
  destruct (isinstance_int_float _); simpl; [|by intros ?%list_elem_of_singleton].
  destruct (hashable _); simpl; [|by intros ?%elem_of_nil].
  destruct (price_in _ _); simpl;
    [by intros ?%elem_of_nil|by intros ?%list_elem_of_singleton].
Qed.

Lemma name_check_rejects_exactly_falsy_witness :
  add_sale nameless_4 0%float (World gum_catalogue [])
  = Returned 0%float (World gum_catalogue [SaleWithoutProductName nameless_4])
  ∧ add_sale five_2 0%float (World five_catalogue [])
    = Returned 4%float (World five_catalogue []).
Proof.
  split.
  - apply (name_check_rejects_exactly_falsy gum_catalogue nameless_4 0%float []).
    reflexivity.
  - destruct (name_check_rejects_exactly_falsy five_catalogue five_2 0%float [])
      as [_ Htruthy].
    destruct Htruthy as [-> _]; reflexivity.
Defined.

(** ** The catalogue and the console *)

(** C8.  [func_total_cost] only reads the catalogue: whatever the sales
    list and whether the call returns or raises, the dictionary in the
    world after the call is the dictionary before it. *)
Theorem func_total_cost_keeps_catalogue sales_list w :
  price_dict (world_of (func_total_cost sales_list w)) = price_dict w.
Proof.
  destruct w as [C out]. unfold func_total_cost. rewrite for_sales_run.
  unfold outcome_of. by destruct (sales_run C sales_list 0) as [[?|?] ?].
Qed.

(** C9.  The outcome of [func_total_cost] is a function of the catalogue
    and the sales list alone: two calls on the same catalogue and list,
    whatever was printed before each, have the same result (the same
    total or the same exception) and print the same lines in the same
    order after what was there. *)
Theorem func_total_cost_deterministic C sales_list out1 out2 :
  ∃ (r : result float) (printed : list message),
    func_total_cost sales_list (World C out1) = outcome_of C out1 (r, printed)
    ∧ func_total_cost sales_list (World C out2) = outcome_of C out2 (r, printed).
Proof.
  exists (sales_run C sales_list 0%float).1, (sales_run C sales_list 0%float).2.
  unfold func_total_cost. rewrite !for_sales_run.
  by destruct (sales_run C sales_list 0).
Qed.

(** ** Boolean quantities *)

Lemma boolean_quantity_counts :
  total_cost_of gum_catalogue [gum_true]
  = Returned 2%float (World gum_catalogue []).
Proof. reflexivity. Qed.

(** C2, as the code has it.  A [bool] is an [int] for [isinstance]: a
    record with a truthy product name and the quantity [True] or [False]
    is handled exactly as the same record with the quantity [1] or [0].
    It prints no warning about its quantity, and when its product is in
    the catalogue it adds [price * 1] or [price * 0] to the total. *)
Theorem boolean_quantity_is_numeric C sale b total_cost out :
  truthy (get sale "Product") = true →
  get sale "Quantity" = PBool b →
  add_sale sale total_cost (World C out)
  = add_sale (<["Quantity" := PInt (Z.b2z b)]> sale) total_cost (World C out)
  ∧ (∀ quantity,
       InvalidQuantity (get sale "Product") quantity
       ∉ (sale_step C sale total_cost).2)
  ∧ (∀ price,
       hashable (get sale "Product") = true →
       price_in C (get sale "Product") = Some price →
       add_sale sale total_cost (World C out)
       = lift (accumulate total_cost price (PInt (Z.b2z b))) (World C out)).
Proof.
  intros Hname Hquantity. rewrite !add_sale_run.
  unfold sale_step, quantity_and_lookup, get.
  rewrite lookup_insert_eq, lookup_insert_ne by done.
  fold (get sale "Product") (get sale "Quantity").
  rewrite Hname, Hquantity. simpl. split; [done|]. split.
  - intros quantity. destruct (hashable _); simpl; [|by intros ?%elem_of_nil].
    destruct (price_in _ _); simpl; [by intros ?%elem_of_nil|].
    by intros ?%list_elem_of_singleton.
  - intros price -> ->. simpl. unfold outcome_of, lift; simpl.
    rewrite app_nil_r. by destruct (accumulate _ _ _).
Qed.

Lemma boolean_quantity_is_numeric_witness :
  add_sale gum_true 0%float (World gum_catalogue [])
  = lift (accumulate 0%float (PFloat 2) (PInt 1)) (World gum_catalogue []).
Proof.
  destruct (boolean_quantity_is_numeric
              gum_catalogue gum_true true 0%float [] eq_refl eq_refl)
    as (_ & _ & Hprice).
  apply Hprice; reflexivity.
Defined.

(** ** The catalogue builder *)

Lemma for_items_run product_list d out :
  for_items product_list (World d out)
  = match (items_run d product_list).1 with
    | Ok _ => Returned tt (World (items_run d product_list).2 out)
    | Err e => Raised e (World (items_run d product_list).2 out)
    end.
Proof.
  revert d. induction product_list as [|item rest IH]; intros d; simpl; [done|].
  unfold mbind, M_bind, add_item.
  destruct (truthy _ && isinstance_int_float _); simpl; [|apply IH].
  unfold setitem. destruct (key_of (get item "title")); simpl; [apply IH|done].
Qed.

Lemma items_run_insertable product_list d :
  Forall (λ item, insertable item = true) product_list →
  (items_run d product_list).1 = Ok tt.
Proof.
  intros Hl. revert d.
  induction Hl as [|item rest Hitem _ IH]; intros d; simpl; [done|].
  unfold insertable, included, hashable in Hitem.
  destruct (truthy _ && isinstance_int_float _); simpl in *; [|apply IH].
  destruct (key_of (get item "title")); [apply IH|done].
Qed.

Lemma items_run_last_price product_list d :
  (items_run d product_list).1 = Ok tt →
  ∀ k, (items_run d product_list).2 !! k
       = match last_price product_list k with
         | Some price => Some price
         | None => d !! k
         end.
Proof.
  revert d. induction product_list as [|item rest IH]; intros d; simpl; [done|].
  unfold included_as, included.
  destruct (truthy _ && isinstance_int_float _); simpl.
  - destruct (key_of (get item "title")) as [k0|]; [|done].
    intros Hok k. rewrite (IH _ Hok).
    destruct (last_price rest k); [done|].
    case_bool_decide as Hk.
    + injection Hk as ->. by rewrite lookup_insert_eq.
    + rewrite lookup_insert_ne; [done|congruence].
  - intros Hok k. rewrite (IH _ Hok). by destruct (last_price rest k).
Qed.

Lemma last_price_app l1 l2 k :
  last_price (l1 ++ l2) k
  = match last_price l2 k with
    | Some price => Some price
    | None => last_price l1 k
    end.
Proof.
  induction l1 as [|item l1 IH]; simpl.
  - by destruct (last_price l2 k).
  - rewrite IH. by destruct (last_price l2 k).
Qed.

Lemma last_price_none l k :
  Forall (λ item, included_as k item = false) l → last_price l k = None.
Proof. induction 1 as [|item l Hitem _ IH]; simpl; [done|]. by rewrite IH, Hitem. Qed.

Lemma last_price_is_Some l k :
  is_Some (last_price l k) ↔ ∃ item, item ∈ l ∧ included_as k item = true.
Proof.
  induction l as [|item l IH]; simpl.
  - split; [by intros [? ?]|]. by intros (? & ?%elem_of_nil & _).
  - destruct (last_price l k) as [price|] eqn:Hl.
    + split; [|eauto]. intros _. destruct IH as [IH _].
      destruct IH as (item' & ? & ?); [eauto|].
      exists item'. split; [by apply elem_of_cons; right|done].
    + destruct (included_as k item) eqn:Hitem.
      * split; [|eauto]. intros _. exists item. split; [apply list_elem_of_here|done].
      * split; [by intros [? ?]|].
        intros (item' & [->|Hin]%elem_of_cons & Hinc); [congruence|].
        apply IH. eauto.
Qed.

Lemma create_price_catalogue_returned product_list C0 out d w :
  create_price_catalogue product_list (World C0 out) = Returned d w →
  w = World d out ∧ ∀ k, d !! k = last_price product_list k.
Proof.
  unfold create_price_catalogue, mbind, M_bind, new_price_dict; simpl.
  rewrite for_items_run.
  destruct (items_run ∅ product_list).1 as [[]|] eqn:Hok; [|done].
  unfold the_price_dict. intros [= <- <-]. split; [done|]. intros k.
  rewrite (items_run_last_price _ _ Hok), lookup_empty.
  by destruct (last_price _ _).
Qed.

Lemma create_price_catalogue_run product_list C0 out :
  Forall (λ item, insertable item = true) product_list →
  ∃ d,
    create_price_catalogue product_list (World C0 out) = Returned d (World d out)
    ∧ ∀ k, d !! k = last_price product_list k.
Proof.
  intros Hl. exists (items_run ∅ product_list).2.
  assert (create_price_catalogue product_list (World C0 out)
          = Returned (items_run ∅ product_list).2
              (World (items_run ∅ product_list).2 out)) as Hrun.
  { unfold create_price_catalogue, mbind, M_bind, new_price_dict; simpl.
    by rewrite for_items_run, (items_run_insertable _ _ Hl). }
  split; [done|]. by apply create_price_catalogue_returned in Hrun as [_ ?].
Qed.

Lemma boolean_price_is_included :
  included_by_spec item_gum_true = false
  ∧ catalogue_of [item_gum_true]
    = Returned {[ KStr "Gum" := PBool true ]}
        (World {[ KStr "Gum" := PBool true ]} []).
Proof. split; reflexivity. Qed.

(** C3, as the code has it.  [create_price_catalogue] has an entry for a
    title if and only if some entry of the product list has that title,
    truthy, with a price that is an [int] or a [float] for [isinstance],
    which a [bool] is.  The other entries are passed over without a line
    printed and without an exception.  The titles that pass the filter
    have to be hashable: a list or an object as title raises. *)
Theorem create_price_catalogue_filter product_list C0 out :
  Forall (λ item, insertable item = true) product_list →
  ∃ d,
    create_price_catalogue product_list (World C0 out) = Returned d (World d out)
    ∧ ∀ k, is_Some (d !! k)
           ↔ ∃ item, item ∈ product_list
                     ∧ truthy (get item "title") = true
                     ∧ isinstance_int_float (get item "price") = true
                     ∧ key_of (get item "title") = Some k.
Proof.
  intros Hl.
  destruct (create_price_catalogue_run product_list C0 out Hl) as (d & Hrun & Hd).
  exists d. split; [done|]. intros k. rewrite Hd, last_price_is_Some.
  unfold included_as, included. split.
  - intros (item & Hin & [[??]%andb_true_iff ?%bool_decide_eq_true]%andb_true_iff).
    by exists item.
  - intros (item & Hin & Htitle & Hprice & Hk). exists item. split; [done|].
    rewrite Htitle, Hprice. simpl. by apply bool_decide_eq_true.
Qed.

Lemma create_price_catalogue_filter_witness :
  ∃ d,
    create_price_catalogue [item_gum; item_candy_text] (World ∅ [])
    = Returned d (World d [])
    ∧ ∀ k, is_Some (d !! k)
           ↔ ∃ item, item ∈ [item_gum; item_candy_text]
                     ∧ truthy (get item "title") = true
                     ∧ isinstance_int_float (get item "price") = true
                     ∧ key_of (get item "title") = Some k.
Proof.
  apply (create_price_catalogue_filter [item_gum; item_candy_text] ∅ []).
  by repeat constructor.
Defined.

(** C6.  When several entries of the product list pass the filter under
    the same title, the catalogue has the price of the last of them: an
    entry that passes the filter and is followed by no entry that passes
    it under the same title gives the title its price in the catalogue
    that [create_price_catalogue] returns; and it returns one whenever
    the titles that pass the filter are hashable. *)
Theorem last_entry_wins l1 item l2 k :
  included item = true →
  key_of (get item "title") = Some k →
  Forall (λ item', included_as k item' = false) l2 →
  (∀ d w,
     catalogue_of (l1 ++ item :: l2) = Returned d w →
     d !! k = Some (get item "price"))
  ∧ (Forall (λ item', insertable item' = true) (l1 ++ item :: l2) →
     ∃ d, catalogue_of (l1 ++ item :: l2) = Returned d (World d [])).
Proof.
  intros Hitem Hk Hlater. split.
  - intros d w [_ Hd]%create_price_catalogue_returned.
    rewrite Hd, last_price_app. simpl. rewrite (last_price_none l2 k Hlater).
    unfold included_as. rewrite Hitem, Hk. simpl. by rewrite bool_decide_true.
  - intros Hl. destruct (create_price_catalogue_run _ ∅ [] Hl) as (d & Hrun & _).
    by exists d.
Qed.

Lemma last_entry_wins_witness :
  ({[ KStr "Gum" := PInt 3 ]} : gmap pykey pyval) !! KStr "Gum" = Some (PInt 3)
  ∧ ∃ d,
      catalogue_of ([item_gum] ++ item_gum_3 :: [item_candy_text])
      = Returned d (World d []).
Proof.
  destruct (last_entry_wins [item_gum] item_gum_3 [item_candy_text] (KStr "Gum"))
    as [Hlast Hreturns]; [reflexivity|reflexivity|by repeat constructor|].
  split.
  - apply (Hlast _ (World {[ KStr "Gum" := PInt 3 ]} [])). reflexivity.
  - apply Hreturns. by repeat constructor.
Defined.

(** ** Order and addition of binary64 numbers

    The facts about [<=] and [+] that the running total needs, proved on
    the specification of the primitive operations: rounding to nearest
    never takes the sum of two non-negative numbers below either of
    them. *)

Section Rounding.
Variables (precision exponent_max : Z).
Hypothesis precision_pos : 0 < precision.

#[local] Abbreviation fexp := (SpecFloat.fexp precision exponent_max).
#[local] Abbreviation emin := (SpecFloat.emin precision exponent_max).

Lemma digits2_pos_log2 m : Z.pos (digits2_pos m) = Z.log2 (Z.pos m) + 1.
Proof.
  assert (Hsize : ∀ p, digits2_pos p = Pos.size p)
    by (induction p; simpl; congruence).
  rewrite Hsize. destruct m; simpl; lia.
Qed.

Lemma digits2_pos_le a b :
  Z.pos a ≤ Z.pos b → Z.pos (digits2_pos a) ≤ Z.pos (digits2_pos b).
Proof.
  intros H. rewrite !digits2_pos_log2.
  apply Z.add_le_mono_r, Z.log2_le_mono, H.
Qed.

Lemma pow2_digits_le m : 2 ^ (Z.pos (digits2_pos m) - 1) ≤ Z.pos m.
Proof.
  rewrite digits2_pos_log2. replace (_ + 1 - 1) with (Z.log2 (Z.pos m)) by lia.
  apply Z.log2_spec. lia.
Qed.

Lemma fexp_mono a b : a ≤ b → fexp a ≤ fexp b.
Proof. unfold SpecFloat.fexp. lia. Qed.

Lemma shr_1_m r : 0 ≤ shr_m r → shr_m (shr_1 r) = shr_m r / 2.
Proof.
  destruct r as [m rb sb]. simpl. intros Hm. rewrite <- Z.div2_div.
  destruct m as [|[p|p|]|p]; simpl; by try lia.
Qed.

Lemma div_pow2_twice m a b : 0 ≤ a → 0 ≤ b → m / 2 ^ a / 2 ^ b = m / 2 ^ (a + b).
Proof.
  intros Ha Hb. rewrite Z.pow_add_r by done.
  apply Z.div_div; [apply Z.pow_nonzero; lia|apply Z.pow_pos_nonneg; lia].
Qed.

Lemma iter_shr_m n r :
  0 ≤ shr_m r → shr_m (SpecFloat.iter_pos shr_1 n r) = shr_m r / 2 ^ Z.pos n.
Proof.
  assert (Hpos : ∀ m k, 0 ≤ m → 0 ≤ m / 2 ^ Z.pos k)
    by (intros; apply Z.div_pos; [done|apply Z.pow_pos_nonneg; lia]).
  revert r. induction n as [n IH|n IH|]; intros r Hr; simpl.
  - assert (0 ≤ shr_m (shr_1 r)) by (rewrite shr_1_m by done; apply Z.div_pos; lia).
    rewrite (IH (SpecFloat.iter_pos shr_1 n (shr_1 r)))
      by (rewrite IH by done; by apply Hpos).
    rewrite IH, shr_1_m by done.
    change (shr_m r / 2) with (shr_m r / 2 ^ 1).
    rewrite !div_pow2_twice by lia. f_equal. f_equal. lia.
  - rewrite (IH (SpecFloat.iter_pos shr_1 n r))
      by (rewrite IH by done; by apply Hpos).
    rewrite IH by done.
    rewrite !div_pow2_twice by lia. f_equal. f_equal. lia.
  - by rewrite shr_1_m.
Qed.

(** [shr_fexp] on a positive mantissa at an exponent that is not below
    [emin]: the exponent it reaches, and the mantissa it leaves. *)
Lemma shr_fexp_spec m e l :
  0 < m → emin ≤ e →
  e ≤ (shr_fexp precision exponent_max m e l).2
  ∧ (shr_fexp precision exponent_max m e l).2 = Z.max e (fexp (Zdigits2 m + e))
  ∧ shr_m (shr_fexp precision exponent_max m e l).1
    = m / 2 ^ ((shr_fexp precision exponent_max m e l).2 - e)
  ∧ 1 ≤ shr_m (shr_fexp precision exponent_max m e l).1.
Proof.
  intros Hm He. unfold shr_fexp, shr.
  assert (Hrec : shr_m (shr_record_of_loc m l) = m) by (by destruct l as [|[]]).
  destruct m as [|m|m]; try lia. simpl Zdigits2.
  destruct (fexp (Z.pos (digits2_pos m) + e) - e) as [|n|n] eqn:Hn; simpl.
  - rewrite Hrec, Z.sub_diag, Z.div_1_r. lia.
  - rewrite iter_shr_m, Hrec by lia.
    replace (e + Z.pos n - e) with (Z.pos n) by lia.
    split; [lia|]. split; [lia|]. split; [done|].
    pose proof (pow2_digits_le m) as Hd.
    assert (Z.pos n ≤ Z.pos (digits2_pos m) - 1)
      by (unfold SpecFloat.fexp, SpecFloat.emin in *; lia).
    assert (2 ^ Z.pos n ≤ 2 ^ (Z.pos (digits2_pos m) - 1))
      by (apply Z.pow_le_mono_r; lia).
    apply Z.div_le_lower_bound; [apply Z.pow_pos_nonneg; lia|lia].
  - rewrite Hrec, Z.sub_diag, Z.div_1_r. lia.
Qed.

Lemma round_nearest_even_ge m l : m ≤ round_nearest_even m l.
Proof. destruct l as [|[]]; simpl; try destruct (Z.even m); lia. Qed.

(** Rounding a positive mantissa: the result is positive, at an exponent
    no smaller than the one its magnitude asks for, and at that exponent
    its mantissa is at least the truncated one. *)
Lemma binary_round_aux_lower m e :
  0 < m → emin ≤ e →
  let E := Z.max e (fexp (Zdigits2 m + e)) in
  binary_round_aux precision exponent_max false m e loc_Exact
  = S754_infinity false
  ∨ ∃ m' e',
      binary_round_aux precision exponent_max false m e loc_Exact
      = S754_finite false m' e'
      ∧ E ≤ e' ∧ (e' = E → m / 2 ^ (E - e) ≤ Z.pos m').
Proof.
  intros Hm He E. unfold binary_round_aux.
  destruct (shr_fexp_spec m e loc_Exact Hm He) as (_ & H1e & H1m & H1p).
  destruct (shr_fexp precision exponent_max m e loc_Exact) as [r1 e1].
  simpl in *. fold E in H1e. subst e1.
  pose proof (round_nearest_even_ge (shr_m r1) (loc_of_shr_record r1)) as Hr.
  set (m2 := round_nearest_even (shr_m r1) (loc_of_shr_record r1)) in *.
  destruct (shr_fexp_spec m2 E loc_Exact) as (H2le & H2e & H2m & H2p);
    [lia|lia|].
  destruct (shr_fexp precision exponent_max m2 E loc_Exact) as [r2 e2].
  simpl in *.
  destruct (shr_m r2) as [|m'|m'] eqn:Hr2; try lia.
  destruct (e2 <=? exponent_max - precision); [|by left].
  right. exists m', e2. split; [done|]. split; [done|].
  intros ->. rewrite H2m, Z.sub_diag, Z.div_1_r. lia.
Qed.

Lemma shl_align_fst m e e' :
  e' ≤ e → Z.pos (shl_align m e e').1 = Z.pos m * 2 ^ (e - e').
Proof.
  intros He. unfold shl_align.
  destruct (e' - e) as [|d|d] eqn:Hd; simpl; try lia.
  - replace (e - e') with 0 by lia. lia.
  - replace (e - e') with (Z.pos d) by lia.
    change (Pos.iter xO m d) with (shift_pos d m).
    rewrite shift_pos_correct, Z.pow_pos_fold. lia.
Qed.

Lemma canonical_exponent m e :
  canonical_mantissa precision exponent_max m e = true →
  e = fexp (Z.pos (digits2_pos m) + e) ∧ emin ≤ e.
Proof.
  unfold canonical_mantissa. intros He%Z.eqb_eq. split; [done|].
  rewrite <- He. unfold SpecFloat.fexp. lia.
Qed.

(** The sum of two positive canonical floats is not below the first. *)
Lemma SFadd_finite_ge mx ex my ey :
  canonical_mantissa precision exponent_max mx ex = true →
  canonical_mantissa precision exponent_max my ey = true →
  SFleb (S754_finite false mx ex)
    (SFadd precision exponent_max
       (S754_finite false mx ex) (S754_finite false my ey)) = true.
Proof.
  intros [Hex Hxmin]%canonical_exponent [Hey Hymin]%canonical_exponent.
  unfold SFadd. set (ez := Z.min ex ey).
  pose proof (shl_align_fst mx ex ez ltac:(lia)) as HX.
  pose proof (shl_align_fst my ey ez ltac:(lia)) as HY.
  set (X := (shl_align mx ex ez).1) in *.
  set (Y := (shl_align my ey ez).1) in *.
  simpl cond_Zopp. change (Z.pos X + Z.pos Y) with (Z.pos (X + Y)).
  unfold binary_normalize, binary_round.
  assert (Hpow : 0 < 2 ^ (ex - ez)) by (apply Z.pow_pos_nonneg; lia).
  assert (Hdig : Z.pos (digits2_pos mx) + ex ≤ Z.pos (digits2_pos (X + Y)) + ez).
  { transitivity (Z.pos (digits2_pos X) + ez).
    - rewrite !digits2_pos_log2, HX, Z.log2_mul_pow2 by lia. lia.
    - apply Z.add_le_mono_r, digits2_pos_le. lia. }
  apply fexp_mono in Hdig. rewrite <- Hex in Hdig.
  set (E := fexp (Z.pos (digits2_pos (X + Y)) + ez)) in *.
  assert (Halign : shl_align (X + Y) ez E = (X + Y, ez)%positive).
  { unfold shl_align. destruct (E - ez) eqn:?; try done; lia. }
  rewrite Halign.
  destruct (binary_round_aux_lower (Z.pos (X + Y)) ez) as [->|(m' & e' & -> & He' & Hm')];
    [lia|lia|done|].
  simpl Zdigits2 in *. fold E in He', Hm'.
  rewrite Z.max_r in He', Hm' by lia.
  unfold SFleb, SFcompare.
  destruct (Z.compare_spec ex e') as [->|?|?]; [|done|lia].
  assert (E = e') as HE by lia. specialize (Hm' (eq_sym HE)).
  rewrite HE in Hm'.
  assert (Z.pos mx ≤ Z.pos m') as Hle.
  { etransitivity; [|exact Hm'].
    apply Z.div_le_lower_bound; [done|]. rewrite Pos2Z.inj_add, HX. lia. }
  change (Pos.compare_cont Eq mx m') with (Pos.compare mx m').
  destruct (Pos.compare_spec mx m'); [done|done|lia].
Qed.

Lemma SFleb_zero_nonneg x :
  SFleb (S754_zero false) x = true →
  (∃ s, x = S754_zero s) ∨ x = S754_infinity false
  ∨ ∃ m e, x = S754_finite false m e.
Proof. destruct x as [s|[]| |[] m e]; simpl; try done; eauto. Qed.

Lemma SFleb_refl x : x ≠ S754_nan → SFleb x x = true.
Proof.
  destruct x as [s|[]| |[] m e]; try done; intros _; unfold SFleb, SFcompare;
    rewrite Z.compare_refl; change (Pos.compare_cont Eq m m) with (Pos.compare m m);
    by rewrite Pos.compare_refl.
Qed.

Lemma SFadd_nonneg_ge x y :
  SpecFloat.valid_binary precision exponent_max x = true →
  SpecFloat.valid_binary precision exponent_max y = true →
  SFleb (S754_zero false) x = true →
  SFleb (S754_zero false) y = true →
  SFleb x (SFadd precision exponent_max x y) = true.
Proof.
  intros Hvx Hvy Hx%SFleb_zero_nonneg Hy%SFleb_zero_nonneg.
  destruct Hx as [[sx ->]|[->|(mx & ex & ->)]],
           Hy as [[sy ->]|[->|(my & ey & ->)]]; try done.
  - by destruct sx, sy.
  - by apply SFleb_refl.
  - simpl in *. apply andb_true_iff in Hvx as [Hvx _], Hvy as [Hvy _].
    by apply SFadd_finite_ge.
Qed.

Lemma SFleb_trans x y z : SFleb x y = true → SFleb y z = true → SFleb x z = true.
Proof.
  unfold SFleb, SFcompare.
  destruct x as [[]|[]| |[] mx ex], y as [[]|[]| |[] my ey],
    z as [[]|[]| |[] mz ez]; try done;
    change (Pos.compare_cont Eq) with Pos.compare;
    repeat match goal with
    | |- context [Z.compare ?a ?b] => destruct (Z.compare_spec a b)
    | |- context [Pos.compare ?a ?b] => destruct (Pos.compare_spec a b)
    end; simpl; try done; try lia.
Qed.
End Rounding.

Lemma fleb_refl t : (0 <=? t)%float = true → (t <=? t)%float = true.
Proof.
  rewrite !leb_spec. intros H. apply SFleb_refl.
  by destruct (Prim2SF t).
Qed.

Lemma fleb_trans a b c :
  (a <=? b)%float = true → (b <=? c)%float = true → (a <=? c)%float = true.
Proof. rewrite !leb_spec. apply SFleb_trans. Qed.

Lemma fadd_nonneg_ge t c :
  (0 <=? t)%float = true → (0 <=? c)%float = true →
  (t <=? t + c)%float = true.
Proof.
  rewrite !leb_spec, add_spec. change (Prim2SF 0) with (S754_zero false).
  apply SFadd_nonneg_ge; [done|apply Prim2SF_valid..].
Qed.

(** ** The running total *)

Lemma accumulate_addend total_cost price quantity :
  accumulate total_cost price quantity
  = result_bind (addend price quantity) (λ c, Ok (total_cost + c)%float).
Proof.
  unfold accumulate, addend, float_add.
  destruct (py_mul price quantity) as [product|]; simpl; [|done].
  destruct (as_number product) as [n|]; simpl; [|done].
  by destruct (to_float n).
Qed.

Lemma sum_from_app total l1 l2 :
  sum_from total (l1 ++ l2)
  = result_bind (sum_from total l1) (λ total', sum_from total' l2).
Proof.
  revert total. induction l1 as [|[price quantity] l1 IH]; intros total;
    simpl; [done|].
  destruct (accumulate total price quantity); simpl; [apply IH|done].
Qed.

Lemma sum_from_nondecreasing C sales_list total :
  (0 <=? total)%float = true →
  Forall (λ sale, nonnegative_contribution C sale = true) sales_list →
  ∃ total',
    sum_from total
      (List.map (price_and_quantity C) (List.filter (counted C) sales_list))
    = Ok total'
    ∧ (total <=? total')%float = true.
Proof.
  intros Htotal Hs. revert total Htotal.
  induction Hs as [|sale rest Hsale _ IH]; intros total Htotal; simpl.
  - exists total. split; [done|]. by apply fleb_refl.
  - unfold nonnegative_contribution in Hsale.
    destruct (counted C sale); simpl in *; [|by apply IH].
    rewrite accumulate_addend.
    destruct (addend _ _) as [c|]; simpl; [|done].
    pose proof (fadd_nonneg_ge total c Htotal Hsale) as Hstep.
    destruct (IH (total + c)%float) as (total' & -> & Hle);
      [by apply (fleb_trans _ total)|].
    exists total'. split; [done|]. by apply (fleb_trans _ (total + c)%float).
Qed.

Lemma negative_quantity_lowers_total :
  counted gum_catalogue gum_minus_1 = true
  ∧ total_cost_of gum_catalogue [] = Returned 0%float (World gum_catalogue [])
  ∧ total_cost_of gum_catalogue [gum_minus_1]
    = Returned (-2)%float (World gum_catalogue [])
  ∧ (-2 <? 0)%float = true.
Proof. repeat split; reflexivity. Qed.

(** C5, as the code has it.  Over a call in which every record that
    counts adds a float that is [>= 0], the total never decreases: the
    total after a first part of the sales list is at most the total after
    the whole list. *)
Theorem total_never_decreases C l1 l2 :
  Forall (λ sale, unhashable_lookup sale = false) (l1 ++ l2) →
  Forall (λ sale, nonnegative_contribution C sale = true) (l1 ++ l2) →
  ∃ t1 t2,
    result_of (total_cost_of C l1) = Ok t1
    ∧ result_of (total_cost_of C (l1 ++ l2)) = Ok t2
    ∧ (t1 <=? t2)%float = true.
Proof.
  intros [Hh1 Hh2]%Forall_app [Hn1 Hn2]%Forall_app.
  rewrite !total_cost_of_sum by (by try apply Forall_app).
  unfold sum_of_sales. rewrite List.filter_app, List.map_app, sum_from_app.
  destruct (sum_from_nondecreasing C l1 0%float) as (t1 & -> & H1); [done..|].
  cbn [result_bind].
  destruct (sum_from_nondecreasing C l2 t1) as (t2 & -> & H2); [done..|].
  by exists t1, t2.
Qed.

Lemma total_never_decreases_witness :
  ∃ t1 t2,
    result_of (total_cost_of gum_catalogue [gum_3]) = Ok t1
    ∧ result_of (total_cost_of gum_catalogue ([gum_3] ++ [candy_1; gum_true]))
      = Ok t2
    ∧ (t1 <=? t2)%float = true.
Proof.
  apply (total_never_decreases gum_catalogue [gum_3] [candy_1; gum_true]);
    by repeat constructor.
Defined.

(** ** Scenarios *)

(** [True], [1] and [1.0] are one key; a list is none. *)
Example one_key_for_equal_numbers :
  key_of (PBool true) = Some (KNum 1)
  ∧ key_of (PInt 1) = Some (KNum 1)
  ∧ key_of (PFloat 1) = Some (KNum 1)
  ∧ key_of (PFloat 2.5) = Some (KFrac 2.5)
  ∧ key_of (PList [PStr "x"]) = None.
Proof. repeat split; reflexivity. Qed.

(** An empty sales list totals [0.0], whatever the catalogue. *)
Example empty_sales_list C :
  total_cost_of C [] = Returned 0%float (World C []).
Proof. reflexivity. Qed.

(** The catalogue [[{"title": "Gum", "price": 2.0}]] and the sales of
    three Gum and one Candy: the total is [6.0], with one warning, for
    Candy. *)
Example gum_and_candy :
  process [item_gum] [gum_3; candy_1] (World ∅ [])
  = Returned 6%float (World gum_catalogue [ProductNotFound (PStr "Candy")]).
Proof. reflexivity. Qed.

(** The quantity ["5"] is text: the record is warned about and left out,
    its quantity is not read as the number 5. *)
Example text_quantity_is_not_coerced :
  total_cost_of gum_catalogue [gum_text_5]
  = Returned 0%float
      (World gum_catalogue [InvalidQuantity (PStr "Gum") (PStr "5")]).
Proof. reflexivity. Qed.

(** A text or a list times an [int]: repeated, empty for a count below
    1, and refused when the count or the result is out of range. *)
Example sequence_times_int :
  py_mul (PStr "ab") (PInt 3) = Ok (PStr "ababab")
  ∧ py_mul (PBool true) (PStr "ab") = Ok (PStr "ab")
  ∧ py_mul (PStr "ab") (PInt (-7)) = Ok (PStr EmptyString)
  ∧ py_mul (PStr "ab") (PInt (10 ^ 30)) = Err OverflowError
  ∧ py_mul (PStr "ab") (PInt (- 10 ^ 30)) = Err OverflowError
  ∧ py_mul (PStr "ab") (PInt (2 ^ 62)) = Err OverflowError
  ∧ py_mul (PStr "é€") (PInt (2 ^ 62)) = Err OverflowError
  ∧ py_mul (PList [PInt 1; PInt 2]) (PInt (2 ^ 62)) = Err MemoryError
  ∧ py_mul (PList []) (PInt (2 ^ 63 - 1)) = Ok (PList [])
  ∧ py_mul (PList []) (PInt (10 ^ 30)) = Err OverflowError
  ∧ py_mul (PStr "ab") (PFloat 2) = Err TypeError
  ∧ py_mul PNone (PInt 3) = Err TypeError
  ∧ float_add 0 (PStr "ababab") = Err TypeError.
Proof. repeat split; reflexivity. Qed.

(** * Further properties of the two functions *)

(** ** Records that do not count *)

Lemma warning_of_length C sale :
  unhashable_lookup sale = false →
  length (warning_of C sale) = if counted C sale then 0%nat else 1%nat.
Proof.
  unfold warning_of, counted.
  destruct (truthy _); simpl; [|done].
  destruct (isinstance_int_float _); simpl; [|done].
  by destruct (in_catalogue _ _).
Qed.

Lemma in_catalogue_empty product_name : in_catalogue ∅ product_name = false.
Proof.
  unfold in_catalogue, price_in.
  destruct (key_of product_name) as [k|]; simpl; [|done].
  by rewrite lookup_empty.
Qed.

Lemma sales_run_empty_catalogue sales_list total_cost :
  Forall (λ sale, unhashable_lookup sale = false) sales_list →
  sales_run ∅ sales_list total_cost
  = (Ok total_cost, concat (List.map (warning_of ∅) sales_list)).
Proof.
  induction 1 as [|sale rest Hsale _ IH]; simpl; [done|].
  rewrite sale_step_spec by done. unfold counted.
  rewrite in_catalogue_empty, andb_false_r. simpl. by rewrite IH.
Qed.

(** With an empty catalogue no record counts: the total stays [0.0] and
    every record prints exactly one warning (as long as no record offers
    the lookup an unhashable product name). *)
Theorem empty_catalogue_totals_zero sales_list :
  Forall (λ sale, unhashable_lookup sale = false) sales_list →
  total_cost_of ∅ sales_list
  = Returned 0%float (World ∅ (concat (List.map (warning_of ∅) sales_list)))
  ∧ Forall (λ sale, length (warning_of ∅ sale) = 1%nat) sales_list.
Proof.
  intros Hs. split.
  - unfold total_cost_of, func_total_cost.
    by rewrite for_sales_run, sales_run_empty_catalogue.
  - eapply Forall_impl; [exact Hs|]. intros sale Hsale. simpl in Hsale.
    rewrite warning_of_length by done. unfold counted.
    by rewrite in_catalogue_empty, andb_false_r.
Qed.

Lemma empty_catalogue_totals_zero_witness :
  total_cost_of ∅ [gum_3; nameless_4]
  = Returned 0%float
      (World ∅ [ProductNotFound (PStr "Gum"); SaleWithoutProductName nameless_4])
  ∧ Forall (λ sale, length (warning_of ∅ sale) = 1%nat) [gum_3; nameless_4].
Proof.
  apply (empty_catalogue_totals_zero [gum_3; nameless_4]).
  by repeat constructor.
Defined.

(** When a call returns, every record of the list has either counted
    towards the total or printed one warning: the printed lines and the
    counted records add up to the length of the list. *)
Theorem every_record_counts_or_warns C sales_list total w :
  total_cost_of C sales_list = Returned total w →
  (length (stdout w) + length (List.filter (counted C) sales_list)
   = length sales_list)%nat.
Proof.
  unfold total_cost_of, func_total_cost. rewrite for_sales_run.
  unfold outcome_of. generalize 0%float. intros t0.
  destruct (sales_run C sales_list t0) as [[t|e] printed] eqn:Hrun; [|done].
  simpl. intros [= _ <-]. simpl. clear total.
  revert t0 t printed Hrun.
  induction sales_list as [|sale rest IH]; intros t0 t printed; simpl.
  - by intros [= _ <-].
  - unfold sale_step, quantity_and_lookup, counted, in_catalogue.
    destruct (truthy _); simpl.
    2:{ destruct (sales_run C rest t0) as [r ms] eqn:Hrest. simpl.
        intros [= -> <-]. simpl. f_equal. by apply (IH t0 t). }
    destruct (isinstance_int_float _); simpl.
    2:{ destruct (sales_run C rest t0) as [r ms] eqn:Hrest. simpl.
        intros [= -> <-]. simpl. f_equal. by apply (IH t0 t). }
    destruct (hashable _); simpl; [|done].
    destruct (price_in C _) as [price|]; simpl.
    + destruct (accumulate t0 price _) as [t1|]; simpl; [|done].
      destruct (sales_run C rest t1) as [r ms] eqn:Hrest. simpl.
      intros [= -> <-]. rewrite Nat.add_succ_r. f_equal. by apply (IH t1 t).
    + destruct (sales_run C rest t0) as [r ms] eqn:Hrest. simpl.
      intros [= -> <-]. simpl. f_equal. by apply (IH t0 t).
Qed.

Lemma every_record_counts_or_warns_witness :
  (length [SaleWithoutProductName nameless_4; ProductNotFound (PStr "Candy")]
   + length (List.filter (counted gum_catalogue) [nameless_4; gum_3; candy_1])
   = length [nameless_4; gum_3; candy_1])%nat.
Proof.
  apply (every_record_counts_or_warns gum_catalogue [nameless_4; gum_3; candy_1]
           6%float
           (World gum_catalogue
              [SaleWithoutProductName nameless_4; ProductNotFound (PStr "Candy")])).
  reflexivity.
Defined.



(** A record with a truthy product name and no [Quantity] key, or with a
    text as quantity (even the text of a number), is warned about with
    the value found and adds nothing: a quantity is never read out of a
    text and never defaulted. *)
Theorem missing_or_text_quantity_is_warned C sale total_cost out :
  truthy (get sale "Product") = true →
  (sale !! "Quantity" = None →
   add_sale sale total_cost (World C out)
   = Returned total_cost
       (World C (out ++ [InvalidQuantity (get sale "Product") PNone])))
  ∧ (∀ text,
       sale !! "Quantity" = Some (PStr text) →
       add_sale sale total_cost (World C out)
       = Returned total_cost
           (World C (out ++ [InvalidQuantity (get sale "Product") (PStr text)]))).
Proof.
  intros Hname. rewrite add_sale_run.
  unfold sale_step, quantity_and_lookup. rewrite Hname. simpl.
  split; [intros Hq|intros text Hq]; unfold get at 1 3; by rewrite Hq.
Qed.

Lemma missing_or_text_quantity_is_warned_witness :
  add_sale gum_text_5 0%float (World gum_catalogue [])
  = Returned 0%float
      (World gum_catalogue [InvalidQuantity (PStr "Gum") (PStr "5")]).
Proof.
  destruct (missing_or_text_quantity_is_warned
              gum_catalogue gum_text_5 0%float [] eq_refl) as [_ Htext].
  apply (Htext "5"). reflexivity.
Defined.

(** ** Exceptions of [func_total_cost] *)

Lemma to_float_error n e : to_float n = Err e → e = OverflowError.
Proof.
  destruct n as [z|f]; simpl; [|done].
  by destruct (float_of_int z); intros [= <-].
Qed.

Lemma number_mul_error x y e : number_mul x y = Err e → e = OverflowError.
Proof.
  destruct x as [a|f], y as [b|g]; unfold number_mul; try done.
  - destruct (to_float (NInt a)) eqn:Ha; simpl; [done|].
    intros [= <-]. by eapply to_float_error.
  - destruct (to_float (NInt b)) eqn:Hb; simpl; [done|].
    intros [= <-]. by eapply to_float_error.
Qed.

Lemma seq_repeat_error v n e : seq_repeat v n = Err e → e ≠ KeyError.
Proof.
  destruct v; simpl; try (by intros [= <-]);
    repeat case_match; by try intros [= <-].
Qed.

Lemma py_mul_error a b e : py_mul a b = Err e → e ≠ KeyError.
Proof.
  unfold py_mul.
  destruct (as_number a) as [x|] eqn:Ha, (as_number b) as [y|] eqn:Hb.
  { destruct (number_mul x y) eqn:Hxy; simpl; [done|].
    intros [= <-]. by rewrite (number_mul_error _ _ _ Hxy). }
  all: destruct (as_index b), (as_index a);
    try apply seq_repeat_error; by intros [= <-].
Qed.

Lemma accumulate_error total_cost price quantity e :
  accumulate total_cost price quantity = Err e → e ≠ KeyError.
Proof.
  unfold accumulate.
  destruct (py_mul price quantity) as [product|e'] eqn:Hmul; simpl.
  - unfold float_add. destruct (as_number product) as [n|];
      [|by intros [= <-]].
    destruct (to_float n) eqn:Hn; simpl; [done|].
    intros [= <-]. by rewrite (to_float_error _ _ Hn).
  - intros [= <-]. by eapply py_mul_error.
Qed.

Lemma sales_run_error C sales_list total_cost e :
  (sales_run C sales_list total_cost).1 = Err e → e ≠ KeyError.
Proof.
  revert total_cost.
  induction sales_list as [|sale rest IH]; intros total_cost; simpl; [done|].
  destruct (sale_step C sale total_cost) as [[t|e'] ms] eqn:Hstep; simpl.
  - apply IH.
  - intros [= ->]. revert Hstep. unfold sale_step, quantity_and_lookup.
    destruct (truthy _); simpl; [|done].
    destruct (isinstance_int_float _); simpl; [|done].
    destruct (hashable _); simpl; [|by intros [= <-]].
    destruct (price_in C _); [|done].
    intros [= Hacc _]. by eapply accumulate_error.
Qed.

(** The subscript [price_dict[product_name]] is guarded by the
    membership test: whatever the catalogue holds and whatever the sales
    list, an exception of [func_total_cost] is never a [KeyError]. *)
Theorem func_total_cost_never_key_error C sales_list out e w :
  func_total_cost sales_list (World C out) = Raised e w →
  e ≠ KeyError.
Proof.
  unfold func_total_cost. rewrite for_sales_run. unfold outcome_of.
  destruct (sales_run C sales_list 0) as [[t|e'] ms] eqn:Hrun; simpl; [done|].
  intros [= -> _]. eapply sales_run_error. by rewrite Hrun.
Qed.

Lemma func_total_cost_never_key_error_witness : TypeError ≠ KeyError.
Proof.
  apply (func_total_cost_never_key_error gum_catalogue [list_as_name] []
           TypeError (World gum_catalogue [])).
  reflexivity.
Defined.

(** A record that reaches the catalogue lookup with a list or an object
    as product name ends the call: whatever the other records are, no
    total is returned. *)
Theorem unhashable_product_ends_the_call C sales_list :
  Exists (λ sale, unhashable_lookup sale = true) sales_list →
  ∃ e w, total_cost_of C sales_list = Raised e w.
Proof.
  intros Hs. unfold total_cost_of, func_total_cost. rewrite for_sales_run.
  assert (∀ t, ∃ e, (sales_run C sales_list t).1 = Err e) as Hrun.
  { induction Hs as [sale rest Hsale|sale rest _ IH]; intros t; simpl.
    - unfold unhashable_lookup in Hsale.
      apply andb_true_iff in Hsale as [[Hp Hq]%andb_true_iff Hh].
      unfold sale_step, quantity_and_lookup. rewrite Hp, Hq, Hh. simpl. eauto.
    - destruct (sale_step C sale t).1 as [t'|e]; simpl; [apply IH|eauto]. }
  destruct (Hrun 0%float) as [e He]. unfold outcome_of. rewrite He. eauto.
Qed.

Lemma unhashable_product_ends_the_call_witness :
  ∃ e w, total_cost_of gum_catalogue [gum_3; list_as_name; candy_1] = Raised e w.
Proof.
  apply (unhashable_product_ends_the_call gum_catalogue
           [gum_3; list_as_name; candy_1]).
  apply Exists_cons_tl, Exists_cons_hd. reflexivity.
Defined.


(** ** The catalogue that [create_price_catalogue] builds *)

Lemma items_run_not_insertable product_list d :
  Exists (λ item, insertable item = false) product_list →
  (items_run d product_list).1 = Err TypeError.
Proof.
  intros Hl. revert d.
  induction Hl as [item rest Hitem|item rest _ IH]; intros d; simpl.
  - unfold insertable, included, hashable in Hitem.
    destruct (truthy _ && isinstance_int_float _); simpl in *; [|done].
    by destruct (key_of (get item "title")).
  - destruct (truthy _ && isinstance_int_float _); simpl; [|apply IH].
    destruct (key_of (get item "title")); [apply IH|done].
Qed.

(** [create_price_catalogue] raises exactly when some entry passes the
    filter with a title that cannot be hashed (a list or an object), and
    what it raises is [TypeError]; otherwise it returns a catalogue and
    prints nothing. *)
Theorem create_price_catalogue_raises_iff product_list :
  (result_of (catalogue_of product_list) = Err TypeError
   ↔ Exists (λ item, insertable item = false) product_list)
  ∧ ((∃ d, catalogue_of product_list = Returned d (World d []))
     ↔ Forall (λ item, insertable item = true) product_list).
Proof.
  assert (Hcases : Forall (λ item, insertable item = true) product_list
                   ∨ Exists (λ item, insertable item = false) product_list).
  { induction product_list as [|item rest IH]; [by left|].
    destruct (insertable item) eqn:Hitem; [|right; by apply Exists_cons_hd].
    destruct IH as [?|?]; [left; by constructor|right; by apply Exists_cons_tl]. }
  assert (Hrun : catalogue_of product_list
                 = match (items_run ∅ product_list).1 with
                   | Ok _ => Returned (items_run ∅ product_list).2
                               (World (items_run ∅ product_list).2 [])
                   | Err e => Raised e (World (items_run ∅ product_list).2 [])
                   end).
  { unfold catalogue_of, create_price_catalogue, mbind, M_bind, new_price_dict.
    simpl. rewrite for_items_run. by destruct (items_run ∅ product_list).1. }
  rewrite Hrun. split; split.
  - destruct Hcases as [Hall|?]; [|done].
    by rewrite (items_run_insertable _ _ Hall).
  - intros Hex. by rewrite (items_run_not_insertable _ _ Hex).
  - destruct Hcases as [?|Hex]; [done|].
    rewrite (items_run_not_insertable _ _ Hex). by intros [? ?].
  - intros Hall. rewrite (items_run_insertable _ _ Hall). eauto.
Qed.

Lemma last_price_included l k price :
  last_price l k = Some price →
  ∃ item, item ∈ l ∧ included_as k item = true ∧ price = get item "price".
Proof.
  induction l as [|item l IH]; simpl; [done|].
  destruct (last_price l k) as [p|].
  - intros [= ->]. destruct IH as (item' & ? & ? & ?); [done|].
    exists item'. split; [by apply elem_of_cons; right|done].
  - destruct (included_as k item) eqn:Hitem; [|done].
    intros [= <-]. exists item. split; [apply list_elem_of_here|done].
Qed.

(** Every price in a catalogue that [create_price_catalogue] returns is
    an [int] or a [float] for [isinstance], and was the price of an entry
    with a truthy title. *)
Theorem catalogue_prices_are_numbers product_list d w k price :
  catalogue_of product_list = Returned d w →
  d !! k = Some price →
  isinstance_int_float price = true
  ∧ ∃ item, item ∈ product_list
            ∧ truthy (get item "title") = true
            ∧ key_of (get item "title") = Some k
            ∧ get item "price" = price.
Proof.
  intros [_ Hd]%create_price_catalogue_returned. rewrite Hd.
  intros (item & Hin & Hitem & ->)%last_price_included.
  unfold included_as, included in Hitem.
  apply andb_true_iff in Hitem as [[Ht Hp]%andb_true_iff Hk%bool_decide_eq_true].
  split; [done|]. by exists item.
Qed.

Lemma catalogue_prices_are_numbers_witness :
  isinstance_int_float (PInt 3) = true
  ∧ ∃ item, item ∈ [item_gum; item_gum_3; item_candy_text]
            ∧ truthy (get item "title") = true
            ∧ key_of (get item "title") = Some (KStr "Gum")
            ∧ get item "price" = PInt 3.
Proof.
  apply (catalogue_prices_are_numbers [item_gum; item_gum_3; item_candy_text]
           {[ KStr "Gum" := PInt 3 ]} (World {[ KStr "Gum" := PInt 3 ]} []));
    reflexivity.
Defined.

(** An entry that fails the filter is as good as absent: the call on a
    product list with it has the outcome of the call on the list without
    it. *)
Theorem excluded_entry_changes_nothing l1 item l2 :
  included item = false →
  catalogue_of (l1 ++ item :: l2) = catalogue_of (l1 ++ l2).
Proof.
  intros Hitem.
  assert (∀ d, items_run d (l1 ++ item :: l2) = items_run d (l1 ++ l2)) as Hrun.
  { induction l1 as [|i l1 IH]; intros d; simpl.
    - unfold included in Hitem. by rewrite Hitem.
    - destruct (truthy _ && isinstance_int_float _); [|apply IH].
      destruct (key_of (get i "title")); [apply IH|done]. }
  unfold catalogue_of, create_price_catalogue, mbind, M_bind, new_price_dict.
  simpl. by rewrite !for_items_run, Hrun.
Qed.

Lemma excluded_entry_changes_nothing_witness :
  catalogue_of ([item_gum] ++ item_candy_text :: [item_gum_3])
  = catalogue_of ([item_gum] ++ [item_gum_3]).
Proof.
  apply (excluded_entry_changes_nothing [item_gum] item_candy_text [item_gum_3]).
  reflexivity.
Defined.

(** ** The two functions together *)

Lemma accumulate_numbers_error total_cost price quantity e :
  isinstance_int_float price = true →
  isinstance_int_float quantity = true →
  accumulate total_cost price quantity = Err e →
  e = OverflowError.
Proof.
  unfold isinstance_int_float, accumulate, py_mul.
  destruct (as_number price) as [x|]; [|done].
  destruct (as_number quantity) as [y|]; [|done]. intros _ _.
  destruct (number_mul x y) as [n|e'] eqn:Hxy; simpl.
  - unfold float_add.
    replace (as_number (of_number n)) with (Some n) by (by destruct n).
    destruct (to_float n) eqn:Hn; simpl; [done|].
    intros [= <-]. by eapply to_float_error.
  - intros [= <-]. by eapply number_mul_error.
Qed.

Lemma func_total_cost_result C sales_list out :
  result_of (func_total_cost sales_list (World C out))
  = (sales_run C sales_list 0%float).1.
Proof.
  unfold func_total_cost. rewrite for_sales_run. unfold outcome_of.
  by destruct (sales_run C sales_list 0) as [[?|?] ?].
Qed.

Lemma sum_of_sales_numbers_error C sales_list e :
  (∀ k price, C !! k = Some price → isinstance_int_float price = true) →
  sum_of_sales C sales_list = Err e →
  e = OverflowError.
Proof.
  intros HC. unfold sum_of_sales. generalize 0%float.
  induction sales_list as [|sale rest IH]; intros t; simpl; [done|].
  destruct (counted C sale) eqn:Hcounted; simpl; [|apply IH].
  destruct (accumulate t _ _) as [t'|e'] eqn:Hacc; simpl; [apply IH|].
  intros [= <-]. revert Hacc.
  unfold counted, in_catalogue in Hcounted.
  apply andb_true_iff in Hcounted as [[_ Hq]%andb_true_iff Hin].
  unfold price_in in *.
  destruct (key_of (get sale "Product")) as [k|]; simpl in *; [|done].
  destruct (C !! k) as [price|] eqn:Hk; simpl in *; [|done].
  apply accumulate_numbers_error; [by eapply HC|done].
Qed.

(** Against a catalogue whose prices are all numbers, as
    [create_price_catalogue] builds them, and a sales list that offers
    the lookup no unhashable product name, the one exception
    [func_total_cost] can raise is [OverflowError], for an [int] too
    large to convert to [float]. *)
Theorem numeric_catalogue_only_overflows C sales_list out e w :
  (∀ k price, C !! k = Some price → isinstance_int_float price = true) →
  Forall (λ sale, unhashable_lookup sale = false) sales_list →
  func_total_cost sales_list (World C out) = Raised e w →
  e = OverflowError.
Proof.
  intros HC Hs Hrun. apply (sum_of_sales_numbers_error C sales_list e HC).
  unfold sum_of_sales. rewrite <- (sales_run_sum C sales_list 0%float Hs).
  by rewrite <- (func_total_cost_result C sales_list out), Hrun.
Qed.

Lemma numeric_catalogue_only_overflows_witness :
  OverflowError = OverflowError.
Proof.
  apply (numeric_catalogue_only_overflows huge_catalogue [gum_3] []
           OverflowError (World huge_catalogue [])).
  - unfold huge_catalogue. intros k price [<- <-]%lookup_singleton_Some.
    reflexivity.
  - by repeat constructor.
  - reflexivity.
Defined.

(** The two calls of [main], one after the other: when the titles that
    pass the filter are hashable and no sale offers the lookup an
    unhashable product name, the sales are totalled against the last
    price of each title, and the only exception left is
    [OverflowError]. *)
Theorem process_totals_against_last_prices product_data sales_data C0 out :
  Forall (λ item, insertable item = true) product_data →
  Forall (λ sale, unhashable_lookup sale = false) sales_data →
  ∃ d,
    (∀ k, d !! k = last_price product_data k)
    ∧ process product_data sales_data (World C0 out)
      = func_total_cost sales_data (World d out)
    ∧ result_of (process product_data sales_data (World C0 out))
      = sum_of_sales d sales_data
    ∧ ∀ e, sum_of_sales d sales_data = Err e → e = OverflowError.
Proof.
  intros Hitems Hsales.
  destruct (create_price_catalogue_run product_data C0 out Hitems)
    as (d & Hcreate & Hd).
  exists d. split; [done|].
  assert (process product_data sales_data (World C0 out)
          = func_total_cost sales_data (World d out)) as Hprocess
    by (unfold process, mbind, M_bind; by rewrite Hcreate).
  split; [done|]. rewrite Hprocess, func_total_cost_result.
  rewrite (sales_run_sum d sales_data 0%float Hsales). split; [done|].
  intros e. apply sum_of_sales_numbers_error.
  intros k price Hk. rewrite Hd in Hk.
  apply last_price_included in Hk as (item & _ & Hitem & ->).
  unfold included_as, included in Hitem.
  by apply andb_true_iff in Hitem as [[_ ?]%andb_true_iff _].
Qed.

Lemma process_totals_against_last_prices_witness :
  ∃ d,
    (∀ k, d !! k = last_price [item_gum; item_gum_3] k)
    ∧ process [item_gum; item_gum_3] [gum_3; candy_1] (World ∅ [])
      = func_total_cost [gum_3; candy_1] (World d [])
    ∧ result_of (process [item_gum; item_gum_3] [gum_3; candy_1] (World ∅ []))
      = sum_of_sales d [gum_3; candy_1]
    ∧ ∀ e, sum_of_sales d [gum_3; candy_1] = Err e → e = OverflowError.
Proof.
  apply (process_totals_against_last_prices
           [item_gum; item_gum_3] [gum_3; candy_1] ∅ []);
    by repeat constructor.
Defined.

(** * Properties of [load_file] and [main] *)

Lemma string_app_empty (a : string) : a +:+ EmptyString = a.
Proof.
  induction a as [|ch a IH]; [done|].
  change (String ch (a +:+ EmptyString) = String ch a). by rewrite IH.
Qed.

Lemma string_app_assoc (a b c : string) : (a +:+ b) +:+ c = a +:+ b +:+ c.
Proof.
  induction a as [|ch a IH]; [done|].
  change (String ch ((a +:+ b) +:+ c) = String ch (a +:+ b +:+ c)).
  by rewrite IH.
Qed.

Section ProgramProperties.

Variable json_load : string → parse.
Variable format_total : float → string.
Variable format_seconds : float → string.
Variables start_time end_time : float.

#[local] Abbreviation run_main :=
  (run json_load format_total format_seconds start_time end_time).
#[local] Abbreviation report :=
  (result_text format_total format_seconds).
#[local] Abbreviation process_and_report sales_file product_data sales_data :=
  (price_catalogue ← build_catalogue product_data;
   total_sales ← total_sales_of price_catalogue sales_data;
   say (newline +:+ report sales_file total_sales (end_time - start_time));;
   append_to results_file
     (report sales_file total_sales (end_time - start_time)
      +:+ newline +:+ newline)).

Lemma load_file_run filename out fs :
  load_file json_load filename (System out fs)
  = match file_value json_load fs filename with
    | Some v =>
        Continue v (System (out ++ file_complaint json_load fs filename) fs)
    | None => Stop (Traceback Unhandled) (System out fs)
    end.
Proof.
  unfold load_file, file_value, file_complaint. simpl.
  destruct (fs !! filename) as [text|]; [|done].
  destruct (json_load text); by rewrite ?app_nil_r.
Qed.

Lemma file_value_not_none fs filename v :
  file_value json_load fs filename = Some v →
  is_none v = false →
  file_complaint json_load fs filename = [].
Proof.
  unfold file_value, file_complaint.
  destruct (fs !! filename) as [text|]; [|by intros [= <-]].
  destruct (json_load text); by intros [= <-].
Qed.

(** The run on three arguments up to the check of the two loaded values.
    Both files are loaded before either is looked at. *)
Lemma main_loads script price_file sales_file fs :
  main json_load format_total format_seconds start_time end_time
    [script; price_file; sales_file] (System [] fs)
  = match file_value json_load fs price_file with
    | None => Stop (Traceback Unhandled) (System [] fs)
    | Some product_data =>
        match file_value json_load fs sales_file with
        | None =>
            Stop (Traceback Unhandled)
              (System (file_complaint json_load fs price_file) fs)
        | Some sales_data =>
            let out := file_complaint json_load fs price_file
                       ++ file_complaint json_load fs sales_file in
            if is_none product_data || is_none sales_data
            then Stop (ExitCode 1) (System out fs)
            else
              process_and_report sales_file product_data sales_data
                (System out fs)
        end
    end.
Proof.
  unfold main. unfold mbind at 1, IO_bind at 1. rewrite load_file_run.
  destruct (file_value json_load fs price_file) as [product_data|]; [|done].
  unfold mbind at 1, IO_bind at 1. rewrite load_file_run. simpl.
  destruct (file_value json_load fs sales_file) as [sales_data|]; [|done].
  by destruct (is_none product_data || is_none sales_data).
Qed.

(** The processing part of [main] keeps the files and ends in a
    traceback or goes on with a total. *)
Lemma build_catalogue_files product_data s :
  match build_catalogue product_data s with
  | Continue _ s' => files s' = files s
  | Stop t s' => files s' = files s ∧ ∃ e, t = Traceback e
  end.
Proof.
  unfold build_catalogue. destruct (iterate product_data) as [|records bad].
  { simpl. eauto. }
  unfold mbind, IO_bind, call.
  destruct (create_price_catalogue records _); simpl; [|eauto].
  destruct bad; simpl; eauto.
Qed.

Lemma total_sales_of_files C sales_data s :
  match total_sales_of C sales_data s with
  | Continue _ s' => files s' = files s
  | Stop t s' => files s' = files s ∧ ∃ e, t = Traceback e
  end.
Proof.
  unfold total_sales_of. destruct (iterate sales_data) as [|records bad].
  { simpl. eauto. }
  unfold mbind, IO_bind, call.
  destruct (func_total_cost records _); simpl; [|eauto].
  destruct bad; simpl; eauto.
Qed.

Lemma process_and_report_cases sales_file product_data sales_data s :
  match process_and_report sales_file product_data sales_data s with
  | Continue _ s' =>
      ∃ total_sales,
        files s'
        = <[results_file :=
              default EmptyString (files s !! results_file)
              +:+ (report sales_file total_sales (end_time - start_time)
                   +:+ newline +:+ newline)]> (files s)
        ∧ last (console s')
          = Some (Line (newline
                        +:+ report sales_file total_sales
                              (end_time - start_time)))
  | Stop t s' => files s' = files s ∧ ∃ e, t = Traceback e
  end.
Proof.
  unfold mbind at 1, IO_bind at 1.
  pose proof (build_catalogue_files product_data s) as H1.
  destruct (build_catalogue product_data s) as [C s1|t s1]; [|done].
  unfold mbind at 1, IO_bind at 1.
  pose proof (total_sales_of_files C sales_data s1) as H2.
  destruct (total_sales_of C sales_data s1) as [total s2|t s2].
  - simpl. exists total. rewrite H2, H1. split; [done|]. by rewrite last_snoc.
  - destruct H2 as [H2 ?]. split; [congruence|done].
Qed.

(** How any run ends and what it leaves of the files: either the files
    are untouched and the run did not end with status 0, or it ended with
    status 0 on three arguments and the results file got one report
    after what it held, the report that is the last line printed. *)
Lemma run_cases argv fs t s :
  run_main argv fs = (t, s) →
  (t ≠ ExitCode 0 ∧ files s = fs)
  ∨ ∃ script price_file sales_file total_sales,
      argv = [script; price_file; sales_file]
      ∧ t = ExitCode 0
      ∧ files s
        = <[results_file :=
              default EmptyString (fs !! results_file)
              +:+ (report sales_file total_sales (end_time - start_time)
                   +:+ newline +:+ newline)]> fs
      ∧ last (console s)
        = Some (Line (newline
                      +:+ report sales_file total_sales
                            (end_time - start_time))).
Proof.
  unfold run.
  destruct argv as [|script [|price_file [|sales_file [|extra argv]]]];
    try (intros [= <- <-]; left; by split).
  rewrite main_loads.
  destruct (file_value json_load fs price_file) as [v1|];
    [|intros [= <- <-]; left; by split].
  destruct (file_value json_load fs sales_file) as [v2|];
    [|intros [= <- <-]; left; by split].
  simpl. destruct (is_none v1 || is_none v2);
    [intros [= <- <-]; left; by split|].
  pose proof (process_and_report_cases sales_file v1 v2
                (System (file_complaint json_load fs price_file
                         ++ file_complaint json_load fs sales_file) fs)) as H.
  destruct (process_and_report sales_file v1 v2 _) as [[] s'|t' s'];
    intros [= <- <-].
  - destruct H as (total & Hfiles & Hlast). right.
    by exists script, price_file, sales_file, total.
  - destruct H as [Hfiles [e ->]]. left. by split.
Qed.

(** A run with a number of arguments other than two prints how to call
    the script and ends with status 1; it opens no file, so the console
    and the files it leaves are the same whatever the files are. *)
Theorem wrong_argument_count_exits_1 argv fs :
  length argv ≠ 3%nat →
  run_main argv fs = (ExitCode 1, System [Line usage] fs).
Proof.
  intros Hargv. unfold run, main.
  by destruct argv as [|script [|price_file [|sales_file [|extra argv]]]].
Qed.

(** When neither load ends in an exception that [load_file] does not
    catch (each file is missing, is not JSON, or is read and parsed) and
    one of the two loads gives [None] (the file is missing, is not JSON,
    or holds [null]), the run ends with status 1 and writes nothing.
    Both files are loaded before either result is looked at, so the
    console has the complaint about the catalogue file and then the one
    about the sales file, each if there is one. *)
Theorem failed_load_exits_1 script price_file sales_file fs v1 v2 :
  file_value json_load fs price_file = Some v1 →
  file_value json_load fs sales_file = Some v2 →
  is_none v1 || is_none v2 = true →
  run_main [script; price_file; sales_file] fs
  = (ExitCode 1,
     System (file_complaint json_load fs price_file
             ++ file_complaint json_load fs sales_file) fs).
Proof.
  intros H1 H2 Hnone. unfold run. rewrite main_loads, H1, H2. simpl.
  by rewrite Hnone.
Qed.

(** A file that holds the JSON value [null] is taken for a file that
    could not be loaded: when both files are read and parsed and one of
    them is [null], the run ends with status 1 and prints nothing at
    all. *)
Theorem null_file_exits_silently script price_file sales_file fs
    text1 text2 v1 v2 :
  fs !! price_file = Some text1 → json_load text1 = Parsed v1 →
  fs !! sales_file = Some text2 → json_load text2 = Parsed v2 →
  v1 = PNone ∨ v2 = PNone →
  run json_load format_total format_seconds start_time end_time
    [script; price_file; sales_file] fs
  = (ExitCode 1, System [] fs).
Proof.
  intros Hf1 Hp1 Hf2 Hp2 Hnull. unfold run. rewrite main_loads.
  unfold file_value, file_complaint. rewrite Hf1, Hp1, Hf2, Hp2. simpl.
  by destruct Hnull as [-> | ->]; [|rewrite orb_true_r].
Qed.

(** The results file is written only by a run that ends with status 0:
    a run that ends with any other status, or in a traceback, leaves
    every file as it was. *)
Theorem results_written_only_on_success argv fs t s :
  run json_load format_total format_seconds start_time end_time argv fs = (t, s) →
  t ≠ ExitCode 0 →
  files s = fs.
Proof.
  intros [[_ ?]|(? & ? & ? & ? & _ & -> & _)]%run_cases ?; done.
Qed.

(** No run truncates or rewrites: every file other than
    [SalesResults.txt] is left as it was, and what [SalesResults.txt]
    held is the beginning of what it holds after the run. *)
Theorem run_only_appends argv fs t s :
  run json_load format_total format_seconds start_time end_time argv fs = (t, s) →
  (∀ path, path ≠ results_file → files s !! path = fs !! path)
  ∧ ∃ added,
      default EmptyString (files s !! results_file)
      = default EmptyString (fs !! results_file) +:+ added.
Proof.
  intros [[_ ->]|(script & pf & sf & total & _ & _ & -> & _)]%run_cases.
  - split; [done|]. exists EmptyString. by rewrite string_app_empty.
  - split; [intros path Hpath; by rewrite lookup_insert_ne|].
    rewrite lookup_insert_eq. simpl. eauto.
Qed.

(** A run that ends with status 0 had three arguments, appended one
    report and two line ends to [SalesResults.txt], and printed, as its
    last line, an empty line and that same report. *)
Theorem success_prints_what_it_appends argv fs s :
  run_main argv fs = (ExitCode 0, s) →
  ∃ script price_file sales_file total_sales,
    argv = [script; price_file; sales_file]
    ∧ files s
      = <[results_file :=
            default EmptyString (fs !! results_file)
            +:+ (report sales_file total_sales (end_time - start_time)
                 +:+ newline +:+ newline)]> fs
    ∧ last (console s)
      = Some (Line (newline
                    +:+ report sales_file total_sales (end_time - start_time))).
Proof.
  intros [[? _]|(script & pf & sf & total & -> & _ & ? & ?)]%run_cases; [done|].
  by exists script, pf, sf, total.
Qed.

Lemma leading_records_objects (records : list record) :
  leading_records (PDict <$> records) = (records, false).
Proof.
  induction records as [|r rest IH]; [done|].
  rewrite fmap_cons. cbn [leading_records]. by rewrite IH.
Qed.

Lemma leading_records_no_get (records : list record) x rest :
  match x with PDict _ => False | _ => True end →
  leading_records ((PDict <$> records) ++ x :: rest) = (records, true).
Proof.
  intros Hx. induction records as [|r records IH].
  - by destruct x.
  - rewrite fmap_cons, <- app_comm_cons. cbn [leading_records]. by rewrite IH.
Qed.

Lemma create_price_catalogue_prints_nothing product_list C0 out :
  stdout (world_of (create_price_catalogue product_list (World C0 out))) = out.
Proof.
  unfold create_price_catalogue, mbind, M_bind, new_price_dict. simpl.
  rewrite for_items_run. by destruct (items_run ∅ product_list).1.
Qed.

Lemma call_func_total_cost C sales_list out fs :
  call C (func_total_cost sales_list) (System out fs)
  = match (sales_run C sales_list 0%float).1 with
    | Ok total =>
        Continue (total, C)
          (System (out ++ (Warning <$> (sales_run C sales_list 0%float).2)) fs)
    | Err e =>
        Stop (Traceback (Core e))
          (System (out ++ (Warning <$> (sales_run C sales_list 0%float).2)) fs)
    end.
Proof.
  unfold call, func_total_cost. rewrite for_sales_run. unfold outcome_of.
  by destruct (sales_run C sales_list 0) as [[?|?] ?].
Qed.

(** [main] is the two functions between the loading and the report.
    When the two files hold lists of objects, the run is the call of
    [create_price_catalogue] followed by the call of [func_total_cost]:
    if these return a total, the run prints their warnings and the report
    of that total, appends the report and ends with status 0; if they
    raise, the run prints the warnings so far and ends in the traceback
    of that exception, with nothing written. *)
Theorem main_reports_process script price_file sales_file fs
    text1 text2 product_data sales_data :
  fs !! price_file = Some text1 →
  json_load text1 = Parsed (PList (PDict <$> product_data)) →
  fs !! sales_file = Some text2 →
  json_load text2 = Parsed (PList (PDict <$> sales_data)) →
  run_main [script; price_file; sales_file] fs
  = match process product_data sales_data (World ∅ []) with
    | Returned total_sales w =>
        (ExitCode 0,
         System ((Warning <$> stdout w)
                 ++ [Line (newline
                           +:+ report sales_file total_sales
                                 (end_time - start_time))])
           (<[results_file :=
                default EmptyString (fs !! results_file)
                +:+ (report sales_file total_sales (end_time - start_time)
                     +:+ newline +:+ newline)]> fs))
    | Raised e w => (Traceback (Core e), System (Warning <$> stdout w) fs)
    end.
Proof.
  intros Hf1 Hp1 Hf2 Hp2. unfold run. rewrite main_loads.
  unfold file_value, file_complaint. rewrite Hf1, Hp1, Hf2, Hp2. simpl.
  unfold mbind at 1, IO_bind at 1, build_catalogue, iterate.
  rewrite leading_records_objects. simpl.
  unfold mbind at 1, IO_bind at 1, call at 1.
  unfold process. unfold mbind at 3, M_bind at 1.
  pose proof (create_price_catalogue_prints_nothing product_data ∅ []) as Hout.
  destruct (create_price_catalogue product_data (World ∅ [])) as [d w|e w] eqn:Hc;
    simpl in Hout; rewrite Hout; simpl; [|done].
  apply create_price_catalogue_returned in Hc as [-> _]. simpl.
  unfold mbind at 1, IO_bind at 1, total_sales_of, iterate.
  rewrite leading_records_objects. simpl.
  unfold mbind at 1, IO_bind at 1. rewrite call_func_total_cost.
  unfold func_total_cost. rewrite for_sales_run. unfold outcome_of.
  by destruct (sales_run d sales_data 0) as [[?|?] ?].
Qed.

(** When both files are read and parsed, the sales file holds a value
    other than [null] and the catalogue file holds a number or a boolean
    instead of a list, the run ends in the traceback of a [TypeError]:
    nothing is printed and nothing is written. *)
Theorem number_for_a_list_is_a_type_error script price_file sales_file fs
    text1 text2 v1 v2 :
  fs !! price_file = Some text1 → json_load text1 = Parsed v1 →
  fs !! sales_file = Some text2 → json_load text2 = Parsed v2 →
  is_none v2 = false →
  isinstance_int_float v1 = true →
  run_main [script; price_file; sales_file] fs
  = (Traceback (Core TypeError), System [] fs).
Proof.
  intros Hf1 Hp1 Hf2 Hp2 Hv2 Hv1. unfold run. rewrite main_loads.
  unfold file_value, file_complaint. rewrite Hf1, Hp1, Hf2, Hp2. simpl.
  rewrite Hv2, orb_false_r.
  by destruct v1.
Qed.

(** When the catalogue file holds a list of objects from which
    [create_price_catalogue] returns a catalogue, and the sales file
    holds a list in which objects that [func_total_cost] totals without
    raising are followed by an item that is not an object, the records
    before that item are totalled and their warnings printed, then the
    run ends in the traceback of an [AttributeError], and nothing is
    written. *)
Theorem item_without_get_is_an_attribute_error script price_file sales_file fs
    text1 text2 product_data d before x after total_sales printed :
  fs !! price_file = Some text1 →
  json_load text1 = Parsed (PList (PDict <$> product_data)) →
  fs !! sales_file = Some text2 →
  json_load text2 = Parsed (PList ((PDict <$> before) ++ x :: after)) →
  match x with PDict _ => False | _ => True end →
  catalogue_of product_data = Returned d (World d []) →
  total_cost_of d before = Returned total_sales (World d printed) →
  run_main [script; price_file; sales_file] fs
  = (Traceback AttributeError, System (Warning <$> printed) fs).
Proof.
  intros Hf1 Hp1 Hf2 Hp2 Hx Hc Ht. unfold run. rewrite main_loads.
  unfold file_value, file_complaint. rewrite Hf1, Hp1, Hf2, Hp2. simpl.
  unfold mbind at 1, IO_bind at 1, build_catalogue, iterate.
  rewrite leading_records_objects. simpl.
  unfold mbind at 1, IO_bind at 1, call at 1.
  unfold catalogue_of in Hc. rewrite Hc. simpl.
  unfold mbind at 1, IO_bind at 1, total_sales_of, iterate.
  rewrite (leading_records_no_get before x after Hx). simpl.
  unfold mbind at 1, IO_bind at 1, call at 1.
  unfold total_cost_of in Ht. by rewrite Ht.
Qed.

End ProgramProperties.

(** Reports accumulate: after two runs that end with status 0, the
    second on the files the first left, [SalesResults.txt] holds what it
    held before, then the report of the first run, then the report of the
    second. *)
Theorem two_runs_append_in_order json_load format_total format_seconds
    start1 end1 start2 end2 argv1 argv2 fs s1 s2 :
  run json_load format_total format_seconds start1 end1 argv1 fs
  = (ExitCode 0, s1) →
  run json_load format_total format_seconds start2 end2 argv2 (files s1)
  = (ExitCode 0, s2) →
  ∃ sales_file1 total1 sales_file2 total2,
    argv1 !! 2%nat = Some sales_file1
    ∧ argv2 !! 2%nat = Some sales_file2
    ∧ files s2 !! results_file
      = Some (default EmptyString (fs !! results_file)
              +:+ (result_text format_total format_seconds sales_file1 total1
                     (end1 - start1) +:+ newline +:+ newline)
              +:+ (result_text format_total format_seconds sales_file2 total2
                     (end2 - start2) +:+ newline +:+ newline)).
Proof.
  intros [[? _]|(? & ? & sf1 & total1 & -> & _ & H1 & _)]%run_cases; [done|].
  intros [[? _]|(? & ? & sf2 & total2 & -> & _ & H2 & _)]%run_cases; [done|].
  exists sf1, total1, sf2, total2. split; [done|]. split; [done|].
  rewrite H2, lookup_insert_eq, H1, lookup_insert_eq. simpl.
  by rewrite string_app_assoc.
Qed.

(** ** The properties of [main] on concrete files *)

Lemma wrong_argument_count_exits_1_witness :
  toy_run ["computeSales.py"; "prices.json"] toy_files
  = (ExitCode 1, System [Line usage] toy_files).
Proof.
  apply (wrong_argument_count_exits_1 toy_json_load toy_format_total
           toy_format_seconds 1%float 1.25%float).
  simpl. lia.
Defined.

Lemma failed_load_exits_1_witness :
  toy_run ["computeSales.py"; "missing.json"; "broken.json"] toy_files
  = (ExitCode 1,
     System
       [Line "Error: El archivo 'missing.json' no fue encontrado.";
        Line "Error: El archivo 'broken.json' no tiene un formato válido."]
       toy_files).
Proof.
  apply (failed_load_exits_1 toy_json_load toy_format_total toy_format_seconds
           1%float 1.25%float "computeSales.py" "missing.json" "broken.json"
           toy_files PNone PNone);
    reflexivity.
Defined.

Lemma null_file_exits_silently_witness :
  toy_run ["computeSales.py"; "null.json"; "sales.json"] toy_files
  = (ExitCode 1, System [] toy_files).
Proof.
  apply (null_file_exits_silently toy_json_load toy_format_total
           toy_format_seconds 1%float 1.25%float "computeSales.py"
           "null.json" "sales.json" toy_files "null" "sales"
           PNone (PList [PDict gum_3; PDict candy_1]));
    try reflexivity.
  by left.
Defined.

Lemma results_written_only_on_success_witness :
  files (System [] toy_files) = toy_files.
Proof.
  apply (results_written_only_on_success toy_json_load toy_format_total
           toy_format_seconds 1%float 1.25%float
           ["computeSales.py"; "seven.json"; "sales.json"] toy_files
           (Traceback (Core TypeError)) (System [] toy_files));
    [reflexivity|discriminate].
Defined.

Lemma run_only_appends_witness :
  (∀ path, path ≠ results_file →
     files (toy_run ["computeSales.py"; "prices.json"; "sales.json"]
              toy_files).2 !! path
     = toy_files !! path)
  ∧ ∃ added,
      default EmptyString
        (files (toy_run ["computeSales.py"; "prices.json"; "sales.json"]
                  toy_files).2 !! results_file)
      = default EmptyString (toy_files !! results_file) +:+ added.
Proof.
  apply (run_only_appends toy_json_load toy_format_total toy_format_seconds
           1%float 1.25%float
           ["computeSales.py"; "prices.json"; "sales.json"] toy_files
           (toy_run ["computeSales.py"; "prices.json"; "sales.json"]
              toy_files).1).
  reflexivity.
Defined.

Lemma success_prints_what_it_appends_witness :
  ∃ script price_file sales_file total_sales,
    ["computeSales.py"; "prices.json"; "sales.json"]
    = [script; price_file; sales_file]
    ∧ files (toy_run ["computeSales.py"; "prices.json"; "sales.json"]
               toy_files).2
      = <[results_file :=
            default EmptyString (toy_files !! results_file)
            +:+ (result_text toy_format_total toy_format_seconds sales_file
                   total_sales (1.25 - 1)
                 +:+ newline +:+ newline)]> toy_files
    ∧ last (console (toy_run ["computeSales.py"; "prices.json"; "sales.json"]
                       toy_files).2)
      = Some (Line (newline
                    +:+ result_text toy_format_total toy_format_seconds
                          sales_file total_sales (1.25 - 1))).
Proof.
  apply (success_prints_what_it_appends toy_json_load toy_format_total
           toy_format_seconds 1%float 1.25%float
           ["computeSales.py"; "prices.json"; "sales.json"] toy_files).
  reflexivity.
Defined.

Lemma main_reports_process_witness :
  toy_run ["computeSales.py"; "prices.json"; "sales.json"] toy_files
  = (ExitCode 0,
     System
       [Warning (ProductNotFound (PStr "Candy"));
        Line (newline +:+ toy_report)]
       (<[results_file := "earlier" +:+ toy_report +:+ newline +:+ newline]>
          toy_files)).
Proof.
  unfold toy_run.
  rewrite (main_reports_process toy_json_load toy_format_total
             toy_format_seconds 1%float 1.25%float "computeSales.py"
             "prices.json" "sales.json" toy_files "catalogue" "sales"
             [item_gum] [gum_3; candy_1]);
    reflexivity.
Defined.

Lemma number_for_a_list_is_a_type_error_witness :
  toy_run ["computeSales.py"; "seven.json"; "sales.json"] toy_files
  = (Traceback (Core TypeError), System [] toy_files).
Proof.
  apply (number_for_a_list_is_a_type_error toy_json_load toy_format_total
           toy_format_seconds 1%float 1.25%float "computeSales.py"
           "seven.json" "sales.json" toy_files "7" "sales"
           (PInt 7) (PList [PDict gum_3; PDict candy_1]));
    reflexivity.
Defined.

Lemma item_without_get_is_an_attribute_error_witness :
  toy_run ["computeSales.py"; "prices.json"; "mixed.json"] toy_files
  = (Traceback AttributeError,
     System [Warning (ProductNotFound (PStr "Candy"))] toy_files).
Proof.
  apply (item_without_get_is_an_attribute_error toy_json_load toy_format_total
           toy_format_seconds 1%float 1.25%float "computeSales.py"
           "prices.json" "mixed.json" toy_files "catalogue" "mixed"
           [item_gum] gum_catalogue [candy_1] (PInt 5) [PDict gum_3]
           0%float [ProductNotFound (PStr "Candy")]);
    reflexivity || exact I.
Defined.

Lemma two_runs_append_in_order_witness :
  ∃ sales_file1 total1 sales_file2 total2,
    ["computeSales.py"; "prices.json"; "sales.json"] !! 2%nat = Some sales_file1
    ∧ ["computeSales.py"; "prices.json"; "sales.json"] !! 2%nat
      = Some sales_file2
    ∧ files
        (toy_run ["computeSales.py"; "prices.json"; "sales.json"]
           (files (toy_run ["computeSales.py"; "prices.json"; "sales.json"]
                     toy_files).2)).2 !! results_file
      = Some (default EmptyString (toy_files !! results_file)
              +:+ (result_text toy_format_total toy_format_seconds
                     sales_file1 total1 (1.25 - 1) +:+ newline +:+ newline)
              +:+ (result_text toy_format_total toy_format_seconds
                     sales_file2 total2 (1.25 - 1) +:+ newline +:+ newline)).
Proof.
  apply (two_runs_append_in_order toy_json_load toy_format_total
           toy_format_seconds 1%float 1.25%float 1%float 1.25%float
           ["computeSales.py"; "prices.json"; "sales.json"]
           ["computeSales.py"; "prices.json"; "sales.json"] toy_files
           (toy_run ["computeSales.py"; "prices.json"; "sales.json"]
              toy_files).2);
    reflexivity.
Defined.
